(** * Admin-console bindings of the Vaex connector

    A shallow embedding of [superset/connectors/vaex/views.py]: the hooks of the
    four CRUD screens (column, metric, cluster, datasource) and the two
    metadata-refresh endpoints of the [Vaex] view, followed by the properties
    the specification states about them.

    Python values are modelled the way the views use them: text as [string]
    (a Python string taken as its UTF-8 bytes, on which string equality
    agrees with equality of code points), optional attributes as [option],
    decoded JSON as the value tree [json.loads] builds, side effects on the
    framework (flash queue, log, security manager, session) as an event
    trace threaded through a small effect monad. *)

From Stdlib Require Import String Ascii List ZArith Bool Arith Lia.
Import ListNotations.
Local Open Scope string_scope.
Local Open Scope list_scope.
Set Warnings "-register-all".

(** ** Text helpers *)

(** The double quote and the line feed, which a literal cannot hold. *)
Definition dquote : ascii := "034"%char.
Definition newline : string := String "010"%char EmptyString.

(** [str.format] restricted to what the views use: every occurrence of the
    auto-numbered field [{}] is replaced by the next argument, all other text
    is copied.  (When the arguments run out Python raises; the templates of
    this module never have more fields than arguments, and the model leaves
    the field in place.) *)
Fixpoint py_format (template : string) (args : list string) : string :=
  match template with
  | EmptyString => EmptyString
  | String c rest =>
      match c, rest, args with
      | "{"%char, String "}"%char rest', a :: args' => a ++ py_format rest' args'
      | _, _, _ => String c (py_format rest args)
      end
  end.

(** Python truthiness of an optional string attribute: [None] and the empty
    string are falsy. *)
Definition truthy (s : option string) : bool :=
  match s with
  | None => false
  | Some EmptyString => false
  | Some _ => true
  end.

(** ** Decoded JSON *)

(** What [json.loads] returns: [None], [True]/[False], an [int], a [float]
    (kept as the text of its literal), a [str], a [list], or a [dict] given
    by its items in insertion order. *)
Inductive json : Type :=
| JNull
| JBool (b : bool)
| JInt (z : Z)
| JFloat (literal : string)
| JStr (s : string)
| JArr (items : list json)
| JObj (members : list (string * json)).

(** [isinstance(v, dict)] *)
Definition is_dict (v : json) : bool :=
  match v with
  | JObj _ => true
  | _ => false
  end.

(** [d[key]] on a dict's items ([None] when the key is absent). *)
Fixpoint dict_get (key : string) (members : list (string * json)) : option json :=
  match members with
  | [] => None
  | (k, v) :: rest => if String.eqb k key then Some v else dict_get key rest
  end.

(** [key in d] *)
Definition dict_contains (key : string) (members : list (string * json)) : bool :=
  match dict_get key members with
  | Some _ => true
  | None => false
  end.

(** [d[key] = v]: a present key keeps its place and takes the new value, a
    new key goes last. *)
Fixpoint dict_set (key : string) (v : json) (members : list (string * json))
  : list (string * json) :=
  match members with
  | [] => [(key, v)]
  | (k, old) :: rest =>
      if String.eqb k key then (k, v) :: rest else (k, old) :: dict_set key v rest
  end.

(** [v != s] for a decoded value [v] and a string [s]: only a string can be
    equal to a string, and strings compare character by character. *)
Definition py_ne_str (v : json) (s : string) : bool :=
  match v with
  | JStr t => negb (String.eqb t s)
  | _ => true
  end.

(** The outcome of [json.loads]: the decoded value, or the text [str(e)] of
    the [ValueError] it raised. *)
Inductive decoded : Type :=
| Value (v : json)
| DecodeError (text : string).

(** ** A reference decoder

    The views call the standard library's decoder, which every statement
    below takes as a parameter.  To run the hooks on concrete documents this
    section gives a small recursive-descent decoder for JSON text without
    [\u] escapes; its error text is its own. *)
Module Decoder.

Definition is_ws (c : ascii) : bool :=
  Ascii.eqb c " " || Ascii.eqb c "009" || Ascii.eqb c "010" || Ascii.eqb c "013".

Fixpoint skip_ws (s : string) : string :=
  match s with
  | String c rest => if is_ws c then skip_ws rest else s
  | EmptyString => s
  end.

Definition is_digit (c : ascii) : bool :=
  Nat.leb 48 (nat_of_ascii c) && Nat.leb (nat_of_ascii c) 57.

(** The longest run of digits at the front, and what follows it. *)
Fixpoint span_digits (s : string) : string * string :=
  match s with
  | String c rest =>
      if is_digit c
      then let (ds, r) := span_digits rest in (String c ds, r)
      else (EmptyString, s)
  | EmptyString => (EmptyString, s)
  end.

Fixpoint digits_value (acc : Z) (ds : string) : Z :=
  match ds with
  | String c rest => digits_value (10 * acc + Z.of_nat (nat_of_ascii c - 48)) rest
  | EmptyString => acc
  end.

Fixpoint strip_prefix (p s : string) : option string :=
  match p, s with
  | EmptyString, _ => Some s
  | String a p', String b s' => if Ascii.eqb a b then strip_prefix p' s' else None
  | String _ _, EmptyString => None
  end.

Definition unescape (c : ascii) : option ascii :=
  if Ascii.eqb c dquote then Some dquote
  else if Ascii.eqb c "\" then Some "\"%char
  else if Ascii.eqb c "/" then Some "/"%char
  else if Ascii.eqb c "b" then Some "008"%char
  else if Ascii.eqb c "f" then Some "012"%char
  else if Ascii.eqb c "n" then Some "010"%char
  else if Ascii.eqb c "r" then Some "013"%char
  else if Ascii.eqb c "t" then Some "009"%char
  else None.

Definition push (c : ascii) (r : option (string * string)) : option (string * string) :=
  match r with
  | Some (s, rest) => Some (String c s, rest)
  | None => None
  end.

(** The body of a string literal, read after its opening quote. *)
Fixpoint scan_string (s : string) : option (string * string) :=
  match s with
  | EmptyString => None
  | String c rest =>
      if Ascii.eqb c dquote then Some (EmptyString, rest)
      else if Ascii.eqb c "\" then
        match rest with
        | String e rest' =>
            match unescape e with
            | Some ch => push ch (scan_string rest')
            | None => None
            end
        | EmptyString => None
        end
      else if Nat.ltb (nat_of_ascii c) 32 then None
      else push c (scan_string rest)
  end.

(** The integer part of a number: [0], or a non-zero digit and more digits. *)
Definition scan_int (s : string) : option (string * string) :=
  match s with
  | String "0" rest => Some ("0", rest)
  | String c _ => if is_digit c then Some (span_digits s) else None
  | EmptyString => None
  end.

(** An optional fraction [.ddd]; without a digit after the point nothing is
    taken. *)
Definition scan_frac (s : string) : string * string :=
  match s with
  | String "." rest =>
      match span_digits rest with
      | (EmptyString, _) => (EmptyString, s)
      | (ds, r) => (String "." ds, r)
      end
  | _ => (EmptyString, s)
  end.

(** An optional exponent [e+dd]. *)
Definition scan_exp (s : string) : string * string :=
  match s with
  | String c rest =>
      if Ascii.eqb c "e" || Ascii.eqb c "E" then
        let (sign, after) :=
          match rest with
          | String "+" r => ("+", r)
          | String "-" r => ("-", r)
          | _ => (EmptyString, rest)
          end in
        match span_digits after with
        | (EmptyString, _) => (EmptyString, s)
        | (ds, r) => (String c (sign ++ ds), r)
        end
      else (EmptyString, s)
  | EmptyString => (EmptyString, s)
  end.

Definition scan_number (s : string) : option (json * string) :=
  let (negative, body) :=
    match s with
    | String "-" r => (true, r)
    | _ => (false, s)
    end in
  match scan_int body with
  | None => None
  | Some (ds, r1) =>
      let (frac, r2) := scan_frac r1 in
      let (exp, r3) := scan_exp r2 in
      match frac, exp with
      | EmptyString, EmptyString =>
          let n := digits_value 0 ds in
          Some (JInt (if negative then (- n)%Z else n), r3)
      | _, _ =>
          Some (JFloat ((if negative then "-" else "") ++ ds ++ frac ++ exp), r3)
      end
  end.

Definition scan_constant (s : string) : option (json * string) :=
  match strip_prefix "null" s with
  | Some r => Some (JNull, r)
  | None =>
  match strip_prefix "true" s with
  | Some r => Some (JBool true, r)
  | None =>
  match strip_prefix "false" s with
  | Some r => Some (JBool false, r)
  | None =>
  match scan_number s with
  | Some r => Some r
  | None =>
  match strip_prefix "NaN" s with
  | Some r => Some (JFloat "NaN", r)
  | None =>
  match strip_prefix "Infinity" s with
  | Some r => Some (JFloat "Infinity", r)
  | None =>
  match strip_prefix "-Infinity" s with
  | Some r => Some (JFloat "-Infinity", r)
  | None => None
  end end end end end end end.

(** One value at the front of [s]; arrays and objects recurse on the fuel. *)
Fixpoint scan_once (fuel : nat) (s : string) : option (json * string) :=
  match fuel with
  | O => None
  | S fuel' =>
      match s with
      | EmptyString => None
      | String c rest =>
          if Ascii.eqb c dquote then
            match scan_string rest with
            | Some (t, r) => Some (JStr t, r)
            | None => None
            end
          else if Ascii.eqb c "[" then
            match skip_ws rest with
            | String "]" r => Some (JArr [], r)
            | r =>
                match scan_items fuel' r with
                | Some (vs, r') => Some (JArr vs, r')
                | None => None
                end
            end
          else if Ascii.eqb c "{" then
            match skip_ws rest with
            | String "}" r => Some (JObj [], r)
            | r =>
                match scan_pairs fuel' r [] with
                | Some (ms, r') => Some (JObj ms, r')
                | None => None
                end
            end
          else scan_constant s
      end
  end
with scan_items (fuel : nat) (s : string) : option (list json * string) :=
  match fuel with
  | O => None
  | S fuel' =>
      match scan_once fuel' s with
      | None => None
      | Some (v, r) =>
          match skip_ws r with
          | String "]" r' => Some ([v], r')
          | String "," r' =>
              match scan_items fuel' (skip_ws r') with
              | Some (vs, r'') => Some (v :: vs, r'')
              | None => None
              end
          | _ => None
          end
      end
  end
with scan_pairs (fuel : nat) (s : string) (acc : list (string * json))
  : option (list (string * json) * string) :=
  match fuel with
  | O => None
  | S fuel' =>
      match s with
      | String c rest =>
          if Ascii.eqb c dquote then
            match scan_string rest with
            | None => None
            | Some (key, r) =>
                match skip_ws r with
                | String ":" r1 =>
                    match scan_once fuel' (skip_ws r1) with
                    | None => None
                    | Some (v, r2) =>
                        let acc' := dict_set key v acc in
                        match skip_ws r2 with
                        | String "}" r3 => Some (acc', r3)
                        | String "," r3 => scan_pairs fuel' (skip_ws r3) acc'
                        | _ => None
                        end
                    end
                | _ => None
                end
            end
          else None
      | EmptyString => None
      end
  end.

(** [json.loads(s)]: one value between optional blanks, and nothing after. *)
Definition loads (s : string) : decoded :=
  match scan_once (2 * String.length s + 2) (skip_ws s) with
  | None => DecodeError "malformed JSON text"
  | Some (v, r) =>
      match skip_ws r with
      | EmptyString => Value v
      | _ => DecodeError "extra data after the JSON value"
      end
  end.

End Decoder.

(** ** The record classes

    Modelled from the spec: the record classes ([VaexColumn], [VaexMetric],
    [VaexCluster], [VaexDatasource]) live in the sibling module [models],
    which is not among the sources at hand.  Each record keeps the
    attributes the views read or write. *)

Record VaexColumn : Type := mkColumn {
  column_name : string;
  dimension_spec_json : option string
}.

Record VaexMetric : Type := mkMetric {
  metric_name : string;
  is_restricted : bool
}.

Record VaexCluster : Type := mkCluster {
  cluster_name : string;
  metadata_last_refreshed : option Z
}.

Record VaexDatasource : Type := mkDatasource {
  name : string;
  schema : option string
}.

(** [cluster.metadata_last_refreshed = t] *)
Definition set_metadata_last_refreshed (cluster : VaexCluster) (t : Z) : VaexCluster :=
  {| cluster_name := cluster_name cluster; metadata_last_refreshed := Some t |}.

(** ** Exceptions, responses and observable events *)

(** An instance of Python's [Exception] class (what [except Exception]
    catches), by its class name and its text [str(e)]. *)
Record Exception : Type := mkException {
  exc_class : string;
  exc_text : string
}.

Definition ValueError (message : string) : Exception :=
  mkException "ValueError" message.

Inductive Response : Type :=
| Redirect (location : string).

(** [flask.redirect] *)
Definition redirect (location : string) : Response := Redirect location.

(** What a hook or an endpoint does to the framework around it, in the order
    it happens. *)
Inductive Event : Type :=
| Flashed (message category : string)
| Logged (e : Exception)
| PermMerged (permission_name view_menu : string)
| MethodCalled (method target : string)
| RefreshCalled (cluster : string) (refreshAll : bool)
| Persisted (operation : string)
| Committed.

(** The session of one request: the cluster rows it has loaded, in the
    order storage yields them, and how many times the clock was read. *)
Record Session : Type := mkSession {
  clusters : list VaexCluster;
  clock : nat
}.

(** ** The effect monad *)

Inductive Outcome (A : Type) : Type :=
| Returned (a : A)
| Raised (e : Exception).
Arguments Returned {A} a.
Arguments Raised {A} e.

Record Run (A : Type) : Type := mkRun {
  outcome : Outcome A;
  session : Session;
  emitted : list Event
}.
Arguments mkRun {A} _ _ _.
Arguments outcome {A} _.
Arguments session {A} _.
Arguments emitted {A} _.

Definition Eff (A : Type) : Type := Session -> Run A.

Definition ret {A : Type} (a : A) : Eff A :=
  fun s => mkRun (Returned a) s [].

Definition raise {A : Type} (e : Exception) : Eff A :=
  fun s => mkRun (Raised e) s [].

Definition bind {A B : Type} (c : Eff A) (k : A -> Eff B) : Eff B :=
  fun s =>
    let r := c s in
    match outcome r with
    | Raised e => mkRun (Raised e) (session r) (emitted r)
    | Returned a =>
        let r' := k a (session r) in
        mkRun (outcome r') (session r') (emitted r ++ emitted r')
    end.

(** [try: c  except Exception as e: ...] hands the exception to the caller
    as a value. *)
Definition catch {A : Type} (c : Eff A) : Eff (Exception + A) :=
  fun s =>
    let r := c s in
    match outcome r with
    | Raised e => mkRun (Returned (inl e)) (session r) (emitted r)
    | Returned a => mkRun (Returned (inr a)) (session r) (emitted r)
    end.

Definition emit (ev : Event) : Eff unit :=
  fun s => mkRun (Returned tt) s [ev].

Declare Scope eff_scope.
Delimit Scope eff_scope with eff.
Notation "x <- c1 ;; c2" := (bind c1 (fun x => c2))
  (at level 61, c1 at next level, right associativity) : eff_scope.
Notation "c1 ;; c2" := (bind c1 (fun _ => c2))
  (at level 61, right associativity) : eff_scope.
Local Open Scope eff_scope.

(** [flask.flash(message, category)] *)
Definition flash (message category : string) : Eff unit :=
  emit (Flashed message category).

(** [logging.exception(e)] *)
Definition logging_exception (e : Exception) : Eff unit :=
  emit (Logged e).

(** [security_manager.merge_perm(permission_name, view_menu)] *)
Definition merge_perm (permission_name view_menu : string) : Eff unit :=
  emit (PermMerged permission_name view_menu).

(** A call of a connector method on a record: the call is observed, then it
    returns or raises as the connector decides. *)
Definition call_method (method target : string) (raised : option Exception) : Eff unit :=
  emit (MethodCalled method target) ;;
  match raised with
  | Some e => raise e
  | None => ret tt
  end.

(** [session.query(VaexCluster).all()] *)
Definition query_all_clusters : Eff (list VaexCluster) :=
  fun s => mkRun (Returned (clusters s)) s [].

(** The [i]-th loaded cluster object becomes [cluster]; a position past the
    end does not exist and nothing changes. *)
Fixpoint replace_nth (i : nat) (cluster : VaexCluster) (rows : list VaexCluster)
  : list VaexCluster :=
  match rows, i with
  | [], _ => []
  | _ :: rest, O => cluster :: rest
  | c :: rest, S i' => c :: replace_nth i' cluster rest
  end.

Definition update_cluster (i : nat) (cluster : VaexCluster) : Eff unit :=
  fun s => mkRun (Returned tt) (mkSession (replace_nth i cluster (clusters s)) (clock s)) [].

(** [session.commit()] *)
Definition session_commit : Eff unit := emit Committed.

(** ** What the views take from outside this file *)

Class Externals : Type := {
  (** [json.loads] of the standard library *)
  json_loads : string -> decoded;
  (** the text [format] gives a decoded value that is not a string *)
  value_text : json -> string;
  (** the message catalogue behind [lazy_gettext] *)
  gettext : string -> string;
  (** [utils.error_msg_from_exception] *)
  error_msg_from_exception : Exception -> string;
  (** [datetime.now()], by the number of readings taken before *)
  datetime_now : nat -> Z;
  (** [col.refresh_metrics()]: the exception it raises, if any *)
  column_refresh_metrics : VaexColumn -> option Exception;
  (** [metric.get_perm()] *)
  metric_get_perm : VaexMetric -> string;
  (** [cluster.perm] *)
  cluster_perm : VaexCluster -> string;
  (** [cluster.refresh_datasources(refreshAll=...)]: the exception it
      raises, if any, and the cluster object as the call leaves it *)
  cluster_refresh_datasources : VaexCluster -> bool -> option Exception * VaexCluster;
  (** [datasource.refresh_metrics()] and [datasource.update_metadata()] *)
  datasource_refresh_metrics : VaexDatasource -> option Exception;
  datasource_update_metadata : VaexDatasource -> option Exception;
  (** [datasource.get_perm()] and [datasource.schema_perm] *)
  datasource_get_perm : VaexDatasource -> string;
  datasource_schema_perm : VaexDatasource -> string
}.

(** [datetime.now()] *)
Definition now {ext : Externals} : Eff Z :=
  fun s => mkRun (Returned (datetime_now (clock s))) (mkSession (clusters s) (S (clock s))) [].

(** [{}] filled with a decoded value: a string stands for itself. *)
Definition format_value {ext : Externals} (v : json) : string :=
  match v with
  | JStr s => s
  | _ => value_text v
  end.

(** ** The framework's side of a CRUD screen *)

(** The base classes the screens of this file are built from. *)
Inductive BaseClass : Type :=
| CompactCRUDMixin
| SupersetModelView
| DatasourceModelView
| DeleteMixin
| YamlExportMixin
| BaseSupersetView.

Definition BaseClass_eqb (a b : BaseClass) : bool :=
  match a, b with
  | CompactCRUDMixin, CompactCRUDMixin
  | SupersetModelView, SupersetModelView
  | DatasourceModelView, DatasourceModelView
  | DeleteMixin, DeleteMixin
  | YamlExportMixin, YamlExportMixin
  | BaseSupersetView, BaseSupersetView => true
  | _, _ => false
  end.

(** What a class statement says about deletion: the base classes it lists,
    the [can_delete] attribute its body sets (if it sets one), and the base
    class its own [_delete] hands over to (if it defines one). *)
Record ViewClass : Type := mkViewClass {
  bases : list BaseClass;
  own_can_delete : option bool;
  delete_delegate : option BaseClass
}.

Definition has_base (b : BaseClass) (v : ViewClass) : bool :=
  existsb (BaseClass_eqb b) (bases v).

(** Attribute lookup of [can_delete]: the class body first, then whatever
    the base classes provide ([None] when none of them defines it). *)
Definition can_delete (inherited : option bool) (v : ViewClass) : option bool :=
  match own_can_delete v with
  | Some b => Some b
  | None => inherited
  end.

(** The hooks a screen offers the framework around a write. *)
Record CrudHooks (Item : Type) : Type := mkHooks {
  hook_pre_add : Item -> Eff unit;
  hook_post_add : Item -> Eff unit;
  hook_pre_update : Item -> Eff unit;
  hook_post_update : Item -> Eff unit
}.
Arguments mkHooks {Item} _ _ _ _.
Arguments hook_pre_add {Item} _ _.
Arguments hook_post_add {Item} _ _.
Arguments hook_pre_update {Item} _ _.
Arguments hook_post_update {Item} _ _.

(** The hooks of the framework's base view, which a screen inherits unless
    it overrides them: they do nothing. *)
Module BaseCRUDView.

Definition pre_add {Item : Type} (item : Item) : Eff unit := ret tt.
Definition post_add {Item : Type} (item : Item) : Eff unit := ret tt.
Definition pre_update {Item : Type} (item : Item) : Eff unit := ret tt.
Definition post_update {Item : Type} (item : Item) : Eff unit := ret tt.

(** Modelled from the spec: the form-submission flow belongs to the web
    framework and is not among the sources.  The pre-hook runs first; an
    exception it raises is shown as a validation message and rejects the
    write before persistence; otherwise the record is handed to storage,
    and after a successful write ([stored]) the post-hook runs. *)
Definition add {Item : Type} (hooks : CrudHooks Item) (stored : bool) (item : Item)
  : Eff unit :=
  checked <- catch (hook_pre_add hooks item) ;;
  match checked with
  | inl e => flash (exc_text e) "danger"
  | inr _ =>
      if stored
      then emit (Persisted "add") ;; hook_post_add hooks item
      else ret tt
  end.

Definition edit {Item : Type} (hooks : CrudHooks Item) (stored : bool) (item : Item)
  : Eff unit :=
  checked <- catch (hook_pre_update hooks item) ;;
  match checked with
  | inl e => flash (exc_text e) "danger"
  | inr _ =>
      if stored
      then emit (Persisted "edit") ;; hook_post_update hooks item
      else ret tt
  end.

End BaseCRUDView.

(** ** Declarative configuration *)

(** A help text of [description_columns], by the way it is produced: a
    translated message, markdown rendered by [utils.markdown], or literal
    markup. *)
Inductive HelpText : Type :=
| Translated (msgid : string)
| Markdown (source : string)
| Markup (html : string).

(** [field in fields] *)
Definition listed (field : string) (fields : list string) : bool :=
  existsb (String.eqb field) fields.

(** [d.get(key)] on a dict literal given by its items. *)
Fixpoint lookup {A : Type} (key : string) (items : list (string * A)) : option A :=
  match items with
  | [] => None
  | (k, v) :: rest => if String.eqb k key then Some v else lookup key rest
  end.

(** The keys of a dict literal, in order. *)
Definition keys {A : Type} (items : list (string * A)) : list string :=
  map fst items.

(** ** The screens of [views.py] *)

Module VaexColumnInlineView.
Section Screen.
Context {ext : Externals}.

Definition class : ViewClass :=
  mkViewClass [CompactCRUDMixin; SupersetModelView] (Some false) None.

(** If a dimension spec JSON is given, ensure that it is valid JSON and
    that [outputName] is specified and is the same as the [column_name]. *)
Definition pre_update (col : VaexColumn) : Eff unit :=
  if truthy (dimension_spec_json col) then
    match json_loads (match dimension_spec_json col with Some s => s | None => "" end) with
    | DecodeError text => raise (ValueError ("Invalid Dimension Spec JSON: " ++ text))
    | Value dimension_spec =>
        match dimension_spec with
        | JObj members =>
            if negb (dict_contains "outputName" members) then
              raise (ValueError "Dimension Spec does not contain `outputName`")
            else if negb (dict_contains "dimension" members) then
              raise (ValueError "Dimension Spec is missing `dimension`")
            else
              match dict_get "outputName" members with
              | Some output_name =>
                  if py_ne_str output_name (column_name col) then
                    raise (ValueError
                             (py_format "`outputName` [{}] unequal to `column_name` [{}]"
                                [format_value output_name; column_name col]))
                  else ret tt
              | None => ret tt
              end
        | _ => raise (ValueError "Dimension Spec must be a JSON object")
        end
    end
  else ret tt.

Definition post_update (col : VaexColumn) : Eff unit :=
  call_method "refresh_metrics" (column_name col) (column_refresh_metrics col).

Definition post_add (col : VaexColumn) : Eff unit :=
  post_update col.

Definition hooks : CrudHooks VaexColumn :=
  mkHooks BaseCRUDView.pre_add post_add pre_update post_update.


Definition edit_columns : list string :=
  ["column_name"; "verbose_name"; "description"; "datasource";
   "groupby"; "filterable"; "count_distinct"; "sum"; "min"; "max"].
Definition add_columns : list string := edit_columns.
Definition list_columns : list string :=
  ["column_name"; "verbose_name"; "type"; "groupby"; "filterable"; "count_distinct";
   "sum"; "min"; "max"].
Definition page_size : nat := 500.
Definition label_columns : list (string * string) :=
  [("column_name", "Column");
   ("type", "Type");
   ("datasource", "Datasource");
   ("groupby", "Groupable");
   ("filterable", "Filterable");
   ("count_distinct", "Count Distinct");
   ("sum", "Sum");
   ("min", "Min");
   ("max", "Max");
   ("verbose_name", "Verbose Name");
   ("description", "Description")].
Definition description_columns : list (string * HelpText) :=
  [("filterable",
    Translated
      "Whether this column is exposed in the `Filters` section of the explore view.");
   ("dimension_spec_json",
    Markdown
      ("this field can be used to specify  "
       ++ "a `dimensionSpec` as documented [here]"
       ++ "(http://vaex.io/docs/latest/querying/dimensionspecs.html). "
       ++ "Make sure to input valid JSON and that the "
       ++ "`outputName` matches the `column_name` defined "
       ++ "above."))].

End Screen.
End VaexColumnInlineView.

Module VaexMetricInlineView.
Section Screen.
Context {ext : Externals}.

Definition class : ViewClass :=
  mkViewClass [CompactCRUDMixin; SupersetModelView] None None.

Definition post_add (metric : VaexMetric) : Eff unit :=
  if is_restricted metric
  then merge_perm "metric_access" (metric_get_perm metric)
  else ret tt.

Definition post_update (metric : VaexMetric) : Eff unit :=
  if is_restricted metric
  then merge_perm "metric_access" (metric_get_perm metric)
  else ret tt.

Definition hooks : CrudHooks VaexMetric :=
  mkHooks BaseCRUDView.pre_add post_add BaseCRUDView.pre_update post_update.


Definition list_columns : list string := ["metric_name"; "verbose_name"; "metric_type"].
Definition edit_columns : list string :=
  ["metric_name"; "description"; "verbose_name"; "metric_type";
   "datasource"; "d3format"; "is_restricted"; "warning_text"].
Definition add_columns : list string := edit_columns.
Definition page_size : nat := 500.
Definition description_columns : list (string * HelpText) :=
  [("metric_type",
    Markdown
      ("use `postagg` as the metric type if you are defining a "
       ++ "[Vaex Post Aggregation]"
       ++ "(http://vaex.io/docs/latest/querying/post-aggregations.html)"));
   ("is_restricted",
    Translated
      ("Whether the access to this metric is restricted "
       ++ "to certain roles. Only roles with the permission "
       ++ "'metric access on XXX (the name of this metric)' "
       ++ "are allowed to access this metric"))].
Definition label_columns : list (string * string) :=
  [("metric_name", "Metric");
   ("description", "Description");
   ("verbose_name", "Verbose Name");
   ("metric_type", "Type");
   ("json", "JSON");
   ("datasource", "Vaex Datasource");
   ("warning_text", "Warning Message");
   ("is_restricted", "Is Restricted")].

End Screen.
End VaexMetricInlineView.

Module VaexClusterModelView.
Section Screen.
Context {ext : Externals}.

Definition class : ViewClass :=
  mkViewClass [SupersetModelView; DeleteMixin; YamlExportMixin] None (Some DeleteMixin).

Definition pre_add (cluster : VaexCluster) : Eff unit :=
  merge_perm "database_access" (cluster_perm cluster).

Definition pre_update (cluster : VaexCluster) : Eff unit :=
  pre_add cluster.

Definition hooks : CrudHooks VaexCluster :=
  mkHooks pre_add BaseCRUDView.post_add pre_update BaseCRUDView.post_update.


Definition add_columns : list string :=
  ["verbose_name"; "coordinator_host"; "coordinator_port";
   "coordinator_endpoint"; "broker_host"; "broker_port";
   "broker_endpoint"; "cache_timeout"; "cluster_name"].
Definition edit_columns : list string := add_columns.
Definition list_columns : list string := ["cluster_name"; "metadata_last_refreshed"].
Definition search_columns : list string := ["cluster_name"].
Definition label_columns : list (string * string) :=
  [("cluster_name", "Cluster");
   ("coordinator_host", "Coordinator Host");
   ("coordinator_port", "Coordinator Port");
   ("coordinator_endpoint", "Coordinator Endpoint");
   ("broker_host", "Broker Host");
   ("broker_port", "Broker Port");
   ("broker_endpoint", "Broker Endpoint");
   ("verbose_name", "Verbose Name");
   ("cache_timeout", "Cache Timeout");
   ("metadata_last_refreshed", "Metadata Last Refreshed")].
Definition description_columns : list (string * HelpText) :=
  [("cache_timeout",
    Translated
      ("Duration (in seconds) of the caching timeout for this cluster. "
       ++ "A timeout of 0 indicates that the cache never expires. "
       ++ "Note this defaults to the global timeout if undefined."))].

End Screen.
End VaexClusterModelView.

Module VaexDatasourceModelView.
Section Screen.
Context {ext : Externals}.

Definition class : ViewClass :=
  mkViewClass [DatasourceModelView; DeleteMixin; YamlExportMixin] None (Some DeleteMixin).

Definition post_add (datasource : VaexDatasource) : Eff unit :=
  call_method "refresh_metrics" (name datasource) (datasource_refresh_metrics datasource) ;;
  merge_perm "datasource_access" (datasource_get_perm datasource) ;;
  if truthy (schema datasource)
  then merge_perm "schema_access" (datasource_schema_perm datasource)
  else ret tt.

Definition post_update (datasource : VaexDatasource) : Eff unit :=
  call_method "update_metadata" (name datasource) (datasource_update_metadata datasource).

Definition hooks : CrudHooks VaexDatasource :=
  mkHooks BaseCRUDView.pre_add post_add BaseCRUDView.pre_update post_update.


Definition list_columns : list string := ["name"; "source_url"; "format"].
Definition order_columns : list string := ["source_url"; "modified"].
Definition related_views : list string :=
  ["VaexColumnInlineView"; "VaexMetricInlineView"].
Definition edit_columns : list string := ["name"; "source_url"; "format"].
Definition search_columns : list string := [].
Definition add_columns : list string := edit_columns.
Definition show_columns : list string := add_columns.
Definition page_size : nat := 500.
Definition base_order : string * string := ("source_url", "asc").
Definition description_columns : list (string * HelpText) :=
  [("slices",
    Translated
      ("The list of charts associated with this table. By "
       ++ "altering this datasource, you may change how these associated "
       ++ "charts behave. "
       ++ "Also note that charts need to point to a datasource, so "
       ++ "this form will fail at saving if removing charts from a "
       ++ "datasource. If you want to change the datasource for a chart, "
       ++ "overwrite the chart from the 'explore view'"));
   ("offset", Translated "Timezone offset (in hours) for this datasource");
   ("description",
    Markup
      ("Supports <a href=" ++ String dquote
         ("https://daringfireball.net/projects/markdown/" ++ String dquote
            ">markdown</a>")));
   ("fetch_values_from",
    Translated
      ("Time expression to use as a predicate when retrieving "
       ++ "distinct values to populate the filter component. "
       ++ "Only applies when `Enable Filter Select` is on. If "
       ++ "you enter `7 days ago`, the distinct list of values in "
       ++ "the filter will be populated based on the distinct value over "
       ++ "the past week"));
   ("filter_select_enabled",
    Translated
      ("Whether to populate the filter's dropdown in the explore "
       ++ "view's filter section with a list of distinct values fetched "
       ++ "from the backend on the fly"));
   ("default_endpoint",
    Translated
      ("Redirects to this endpoint when clicking on the datasource "
       ++ "from the datasource list"));
   ("cache_timeout",
    Translated
      ("Duration (in seconds) of the caching timeout for this datasource. "
       ++ "A timeout of 0 indicates that the cache never expires. "
       ++ "Note this defaults to the cluster timeout if undefined."))].
Definition label_columns : list (string * string) :=
  [("slices", "Associated Charts");
   ("datasource_link", "Data Source");
   ("cluster", "Cluster");
   ("description", "Description");
   ("owner", "Owner");
   ("is_hidden", "Is Hidden");
   ("filter_select_enabled", "Enable Filter Select");
   ("default_endpoint", "Default Endpoint");
   ("offset", "Time Offset");
   ("cache_timeout", "Cache Timeout");
   ("name", "Datasource Name");
   ("fetch_values_from", "Fetch Values From");
   ("changed_by_", "Changed By");
   ("modified", "Modified")].

End Screen.
End VaexDatasourceModelView.

(** The two endpoints of the [Vaex] view.  Both are wrapped by the
    framework's decorators ([has_access], [expose]), which decide whether a
    request reaches the body; what follows is the bodies. *)
Module Vaex.
Section Endpoints.
Context {ext : Externals}.

Definition class : ViewClass := mkViewClass [BaseSupersetView] None None.

(** [cluster.refresh_datasources(refreshAll=refreshAll)] on the [i]-th
    object of the session: the call works on the object in place, then
    returns or raises. *)
Definition call_refresh (i : nat) (cluster : VaexCluster) (refreshAll : bool)
  : Eff VaexCluster :=
  emit (RefreshCalled (cluster_name cluster) refreshAll) ;;
  let (raised, cluster') := cluster_refresh_datasources cluster refreshAll in
  update_cluster i cluster' ;;
  match raised with
  | Some e => raise e
  | None => ret cluster'
  end.

(** The body of the [for] loop over the clusters still to do, the first of
    which is the [i]-th object of the session.  [Some response] is the
    [return] inside the loop. *)
Fixpoint for_each_cluster (refreshAll : bool) (i : nat) (todo : list VaexCluster)
  : Eff (option Response) :=
  match todo with
  | [] => ret None
  | cluster :: rest =>
      let cluster_name_ := cluster_name cluster in
      attempt <- catch (call_refresh i cluster refreshAll) ;;
      match attempt with
      | inl e =>
          flash (py_format ("Error while processing cluster '{}'" ++ newline ++ "{}")
                   [cluster_name_; error_msg_from_exception e])
                "danger" ;;
          logging_exception e ;;
          ret (Some (redirect "/vaexclustermodelview/list/"))
      | inr cluster' =>
          t <- now ;;
          let cluster'' := set_metadata_last_refreshed cluster' t in
          update_cluster i cluster'' ;;
          flash (py_format (gettext "Refreshed metadata from cluster [{}]")
                   [cluster_name cluster''])
                "info" ;;
          for_each_cluster refreshAll (S i) rest
      end
  end.

(** endpoint that refreshes vaex datasources metadata *)
Definition refresh_datasources (refreshAll : bool) : Eff Response :=
  rows <- query_all_clusters ;;
  early <- for_each_cluster refreshAll 0 rows ;;
  match early with
  | Some response => ret response
  | None =>
      session_commit ;;
      ret (redirect "/vaexdatasourcemodelview/list/")
  end.

(** Calling this endpoint will cause a scan for new datasources only and
    add them. *)
Definition scan_new_datasources : Eff Response :=
  refresh_datasources false.


(** The paths the two endpoints are exposed under ([@expose]). *)
Definition exposed : list string :=
  ["/refresh_datasources/"; "/scan_new_datasources/"].

End Endpoints.
End Vaex.


(** ** Registration with the application builder *)

(** The calls on [appbuilder] at the end of the file, in order. A label is
    given by its message id. *)
Inductive Registration : Type :=
| AddViewNoMenu (view : string)
| AddView (view name label icon category category_label : string)
    (category_icon : option string)
| AddLink (name label href category category_label category_icon icon : string)
| AddSeparator (category : string).

Definition registrations : list Registration :=
  [AddViewNoMenu "VaexColumnInlineView";
   AddViewNoMenu "VaexMetricInlineView";
   AddView "VaexClusterModelView" "Vaex Clusters" "Vaex Clusters" "fa-cubes"
     "Sources" "Sources" (Some "fa-database");
   AddView "VaexDatasourceModelView" "Vaex Datasources" "Vaex Datasources" "fa-cube"
     "Sources" "Sources" None;
   AddViewNoMenu "Vaex";
   AddLink "Scan New Datasources" "Scan New Datasources" "/vaex/scan_new_datasources/"
     "Sources" "Sources" "fa-database" "fa-refresh";
   AddLink "Refresh Vaex Metadata" "Refresh Vaex Metadata" "/vaex/refresh_datasources/"
     "Sources" "Sources" "fa-database" "fa-cog";
   AddSeparator "Sources"].

(** The view classes handed to the application builder. *)
Fixpoint registered_views (regs : list Registration) : list string :=
  match regs with
  | [] => []
  | AddViewNoMenu view :: rest => view :: registered_views rest
  | AddView view _ _ _ _ _ _ :: rest => view :: registered_views rest
  | _ :: rest => registered_views rest
  end.

(** The targets of the menu links. *)
Fixpoint link_targets (regs : list Registration) : list string :=
  match regs with
  | [] => []
  | AddLink _ _ href _ _ _ _ :: rest => href :: link_targets rest
  | _ :: rest => link_targets rest
  end.

(** [str.lower] on ASCII letters. *)
Definition lower_char (c : ascii) : ascii :=
  let n := nat_of_ascii c in
  if Nat.leb 65 n && Nat.leb n 90 then ascii_of_nat (n + 32) else c.

Fixpoint lower (s : string) : string :=
  match s with
  | EmptyString => EmptyString
  | String c rest => String (lower_char c) (lower rest)
  end.

(** The framework's default routing, which this file relies on and does not
    override: a view is served under the lower-cased name of its class, and
    a model view serves its list screen under [/list/]. *)
Definition route_base (view : string) : string := "/" ++ lower view.
Definition list_route (view : string) : string := route_base view ++ "/list/".

(** ** Reading a trace *)

(** The flash queue: messages with their categories, oldest first. *)
Fixpoint flashes (evs : list Event) : list (string * string) :=
  match evs with
  | [] => []
  | Flashed message category :: rest => (message, category) :: flashes rest
  | _ :: rest => flashes rest
  end.

(** The exceptions written to the log. *)
Fixpoint logged (evs : list Event) : list Exception :=
  match evs with
  | [] => []
  | Logged e :: rest => e :: logged rest
  | _ :: rest => logged rest
  end.

(** The permissions handed to the security manager. *)
Fixpoint perm_calls (evs : list Event) : list (string * string) :=
  match evs with
  | [] => []
  | PermMerged permission_name view_menu :: rest =>
      (permission_name, view_menu) :: perm_calls rest
  | _ :: rest => perm_calls rest
  end.

(** The clusters whose refresh operation was invoked, each with the flag. *)
Fixpoint refresh_calls (evs : list Event) : list (string * bool) :=
  match evs with
  | [] => []
  | RefreshCalled cluster refreshAll :: rest => (cluster, refreshAll) :: refresh_calls rest
  | _ :: rest => refresh_calls rest
  end.

(** The number of commits. *)
Fixpoint commits (evs : list Event) : nat :=
  match evs with
  | [] => 0
  | Committed :: rest => S (commits rest)
  | _ :: rest => commits rest
  end.

(** Whether a trace holds a permission registration at all. *)
Definition registers (evs : list Event) : bool :=
  match perm_calls evs with
  | [] => false
  | _ :: _ => true
  end.

(** Deletion is switched off on a screen when its [can_delete] attribute
    resolves to [False]. *)
Definition deletion_disabled (inherited : option bool) (v : ViewClass) : bool :=
  match can_delete inherited v with
  | Some false => true
  | _ => false
  end.

(** ** Reading a refresh pass *)

(** The cluster's refresh operation returns, rather than raises, under the
    given flag. *)
Definition refresh_succeeds {ext : Externals} (refreshAll : bool) (cluster : VaexCluster)
  : Prop :=
  exists cluster', cluster_refresh_datasources cluster refreshAll = (None, cluster').

(** [after] is the cluster [before] as its refresh operation left it, with
    the last-refreshed timestamp set to the reading the clock gave after [k]
    earlier readings. *)
Definition stamped {ext : Externals} (refreshAll : bool) (k : nat)
  (before after : VaexCluster) : Prop :=
  exists cluster',
    cluster_refresh_datasources before refreshAll = (None, cluster') /\
    after = set_metadata_last_refreshed cluster' (datetime_now k).

(** The text of the notice for a refreshed cluster. *)
Definition refreshed_notice {ext : Externals} (cluster : VaexCluster) : string :=
  py_format (gettext "Refreshed metadata from cluster [{}]") [cluster_name cluster].

(** What one successful turn of the loop emits, for a cluster as loaded and
    as stored after the turn. *)
Definition refreshed_events {ext : Externals} (refreshAll : bool)
  (turn : VaexCluster * VaexCluster) : list Event :=
  [RefreshCalled (cluster_name (fst turn)) refreshAll;
   Flashed (refreshed_notice (snd turn)) "info"].

(** ** The specification's reading of the dimension-spec check *)

(** The specification's words for a dimension spec that passes: it is absent
    or empty, or it parses as a JSON object that has a [dimension] key and
    an [outputName] key whose value is the column's name. *)
Definition dimension_spec_accepted {ext : Externals} (col : VaexColumn) : Prop :=
  match dimension_spec_json col with
  | None => True
  | Some spec =>
      spec = EmptyString \/
      exists members,
        json_loads spec = Value (JObj members) /\
        dict_contains "dimension" members = true /\
        dict_get "outputName" members = Some (JStr (column_name col))
  end.

(** ** A concrete environment, to run the views *)

Module Sample.

(** Python text of the simplest decoded values. *)
Definition text_of (v : json) : string :=
  match v with
  | JNull => "None"
  | JBool true => "True"
  | JBool false => "False"
  | JFloat literal => literal
  | JStr s => s
  | _ => "<object>"
  end.

(** The cluster named [B] is unreachable; every other connector call
    returns. *)
Definition refresh (cluster : VaexCluster) (refreshAll : bool)
  : option Exception * VaexCluster :=
  if String.eqb (cluster_name cluster) "B"
  then (Some (mkException "ConnectionError" "connection refused"), cluster)
  else (None, cluster).

Definition externals : Externals := {|
  json_loads := Decoder.loads;
  value_text := text_of;
  gettext := fun msgid => msgid;
  error_msg_from_exception := exc_text;
  datetime_now := fun k => (1000 + Z.of_nat k)%Z;
  column_refresh_metrics := fun _ => None;
  metric_get_perm := fun m => metric_name m;
  cluster_perm := fun c => ("[" ++ cluster_name c ++ "]")%string;
  cluster_refresh_datasources := refresh;
  datasource_refresh_metrics := fun _ => None;
  datasource_update_metadata := fun _ => None;
  datasource_get_perm := fun d => name d;
  datasource_schema_perm := fun d => match schema d with Some s => s | None => "" end
|}.

Definition quoted (s : string) : string :=
  String dquote (s ++ String dquote EmptyString).

(** [{"outputName":"revenue","dimension":"amount"}] *)
Definition spec_revenue : string :=
  "{" ++ quoted "outputName" ++ ":" ++ quoted "revenue" ++ ","
      ++ quoted "dimension" ++ ":" ++ quoted "amount" ++ "}".

(** [{"outputName":"cost","dimension":"amount"}] *)
Definition spec_cost : string :=
  "{" ++ quoted "outputName" ++ ":" ++ quoted "cost" ++ ","
      ++ quoted "dimension" ++ ":" ++ quoted "amount" ++ "}".

(** [{"dimension":"amount"}] and [{"outputName":"revenue"}] *)
Definition spec_no_output_name : string :=
  "{" ++ quoted "dimension" ++ ":" ++ quoted "amount" ++ "}".
Definition spec_no_dimension : string :=
  "{" ++ quoted "outputName" ++ ":" ++ quoted "revenue" ++ "}".

(** [["a","b"]] *)
Definition spec_array : string :=
  "[" ++ quoted "a" ++ "," ++ quoted "b" ++ "]".

Definition revenue (spec : string) : VaexColumn := mkColumn "revenue" (Some spec).

Definition start : Session := mkSession [] 0.

Definition cluster_A : VaexCluster := mkCluster "A" None.
Definition cluster_B : VaexCluster := mkCluster "B" None.
Definition cluster_C : VaexCluster := mkCluster "C" (Some 7%Z).

End Sample.

(** ** Further readings of a trace *)

(** The events a refresh pass is made of: calls of a cluster's refresh
    operation, flashed messages, log records and commits. *)
Definition is_refresh_event (ev : Event) : bool :=
  match ev with
  | Flashed _ _ | Logged _ | RefreshCalled _ _ | Committed => true
  | PermMerged _ _ | MethodCalled _ _ | Persisted _ => false
  end.

(** The number of queued messages of one category. *)
Definition count_category (category : string) (queue : list (string * string)) : nat :=
  length (filter (fun m => String.eqb (snd m) category) queue).

(** The first cluster of a list whose refresh operation raises, with the
    clusters before it and after it. *)
Definition fails_first {ext : Externals} (refreshAll : bool)
  (rows pre : list VaexCluster) (b b' : VaexCluster) (post : list VaexCluster)
  (e : Exception) : Prop :=
  rows = pre ++ b :: post /\
  (forall c, In c pre -> refresh_succeeds refreshAll c) /\
  cluster_refresh_datasources b refreshAll = (Some e, b').

(** * Properties *)

(** ** Text and list helpers *)

Lemma append_empty_r (s : string) : (s ++ EmptyString)%string = s.
Proof.
  induction s as [|c s IH]; simpl; [reflexivity | now rewrite IH].
Qed.

Lemma py_ne_str_false (v : json) (s : string) :
  py_ne_str v s = false <-> v = JStr s.
Proof.
  destruct v; simpl; split; intros H; try discriminate.
  - apply negb_false_iff, String.eqb_eq in H. now subst.
  - injection H as ->. now rewrite String.eqb_refl.
Qed.

Lemma dict_contains_get (key : string) (members : list (string * json)) :
  dict_contains key members = true <-> exists v, dict_get key members = Some v.
Proof.
  unfold dict_contains. destruct (dict_get key members) as [v|]; split.
  - intros _. now exists v.
  - reflexivity.
  - discriminate.
  - intros [v H]. discriminate.
Qed.

(** ** The dimension-spec check *)

Section DimensionSpec.
Context {ext : Externals}.

(** The hook touches neither the session nor the framework: it only
    returns or raises. *)
Lemma pre_update_silent (col : VaexColumn) (s : Session) :
  session (VaexColumnInlineView.pre_update col s) = s /\
  emitted (VaexColumnInlineView.pre_update col s) = [].
Proof.
  unfold VaexColumnInlineView.pre_update.
  destruct (truthy (dimension_spec_json col)); [|split; reflexivity].
  destruct (json_loads _) as [v|text]; [|split; reflexivity].
  destruct v as [| | | | | |members]; try (split; reflexivity).
  destruct (dict_contains "outputName" members); [|split; reflexivity].
  destruct (dict_contains "dimension" members); [|split; reflexivity].
  simpl. destruct (dict_get "outputName" members) as [o|]; [|split; reflexivity].
  destruct (py_ne_str o (column_name col)); split; reflexivity.
Qed.

(** The outcome of the check does not depend on the session. *)
Lemma pre_update_outcome_any (col : VaexColumn) (s s' : Session) :
  outcome (VaexColumnInlineView.pre_update col s) =
  outcome (VaexColumnInlineView.pre_update col s').
Proof.
  unfold VaexColumnInlineView.pre_update.
  destruct (truthy (dimension_spec_json col)); [|reflexivity].
  destruct (json_loads _) as [v|text]; [|reflexivity].
  destruct v as [| | | | | |members]; try reflexivity.
  destruct (dict_contains "outputName" members); [|reflexivity].
  destruct (dict_contains "dimension" members); [|reflexivity].
  simpl. destruct (dict_get "outputName" members) as [o|]; [|reflexivity].
  destruct (py_ne_str o (column_name col)); reflexivity.
Qed.

(** Whatever the check raises is a [ValueError]. *)
Lemma pre_update_raises_ValueError (col : VaexColumn) (s : Session) (e : Exception) :
  outcome (VaexColumnInlineView.pre_update col s) = Raised e ->
  exists message, e = ValueError message.
Proof.
  unfold VaexColumnInlineView.pre_update.
  destruct (truthy (dimension_spec_json col)); [|discriminate].
  destruct (json_loads _) as [v|text].
  2:{ simpl. intros H. injection H as <-. eauto. }
  destruct v as [| | | | | |members];
    try (simpl; intros H; injection H as <-; eauto; fail).
  destruct (dict_contains "outputName" members).
  2:{ simpl. intros H. injection H as <-. eauto. }
  destruct (dict_contains "dimension" members).
  2:{ simpl. intros H. injection H as <-. eauto. }
  simpl. destruct (dict_get "outputName" members) as [o|]; [|discriminate].
  destruct (py_ne_str o (column_name col)); [|discriminate].
  simpl. intros H. injection H as <-. eauto.
Qed.

(** The two ways the check can end: it returns on an accepted spec, and it
    raises a [ValueError] on every other one. *)
Lemma pre_update_cases (col : VaexColumn) (s : Session) :
  (outcome (VaexColumnInlineView.pre_update col s) = Returned tt /\
   dimension_spec_accepted col) \/
  (exists message,
      outcome (VaexColumnInlineView.pre_update col s) = Raised (ValueError message) /\
      ~ dimension_spec_accepted col).
Proof.
  unfold VaexColumnInlineView.pre_update, dimension_spec_accepted.
  destruct (dimension_spec_json col) as [spec|]; simpl; [|left; tauto].
  destruct spec as [|c spec]; simpl; [left; tauto|].
  set (text := String c spec).
  destruct (json_loads text) as [v|msg] eqn:Hload.
  2:{ right. eexists. split; [reflexivity|].
      intros [H|(members & H & _)]; discriminate. }
  destruct v as [| | | | | |members];
    try (right; eexists; split;
         [reflexivity | intros [H|(m & H & _)]; discriminate]).
  destruct (dict_contains "outputName" members) eqn:Hout; simpl.
  2:{ right. eexists. split; [reflexivity|].
      intros [H|(m & H & _ & Hget)]; [discriminate|].
      injection H as <-.
      assert (dict_contains "outputName" members = true) as Hc
        by (apply dict_contains_get; eauto).
      congruence. }
  destruct (dict_contains "dimension" members) eqn:Hdim; simpl.
  2:{ right. eexists. split; [reflexivity|].
      intros [H|(m & H & Hd & _)]; [discriminate|].
      injection H as <-. congruence. }
  apply dict_contains_get in Hout as [o Ho]. rewrite Ho.
  destruct (py_ne_str o (column_name col)) eqn:Hne; simpl.
  - right. eexists. split; [reflexivity|].
    intros [H|(m & H & _ & Hget)]; [discriminate|].
    injection H as <-. rewrite Ho in Hget. injection Hget as ->.
    simpl in Hne. now rewrite String.eqb_refl in Hne.
  - left. split; [reflexivity|]. right. exists members.
    apply py_ne_str_false in Hne. subst o. auto.
Qed.

(** C1. For every column record and every dimension-spec string attached to
    it, the check run before an update returns without an error if and only
    if the string is absent or empty, or it parses as a JSON object that
    has a [dimension] key and an [outputName] key whose value is the
    column's name, compared as strings character by character. *)
Theorem pre_update_passes_iff_accepted (col : VaexColumn) (s : Session) :
  outcome (VaexColumnInlineView.pre_update col s) = Returned tt <->
  dimension_spec_accepted col.
Proof.
  destruct (pre_update_cases col s) as [[Hret Hacc]|(message & Hraise & Hrej)].
  - tauto.
  - split; [|contradiction]. rewrite Hraise. discriminate.
Qed.

(** C4. The check applies its tests in a fixed order and reports each
    failure with a text of its own: a parse failure carries the decoder's
    text; a decoded value that is not an object, a missing [outputName],
    then a missing [dimension], each have their message; an [outputName]
    different from the column name is reported with both values.  The first
    test that fails decides the error, and no two of the texts coincide. *)
Theorem pre_update_reports_first_failure :
  (forall col spec s text,
      dimension_spec_json col = Some spec -> spec <> EmptyString ->
      json_loads spec = DecodeError text ->
      outcome (VaexColumnInlineView.pre_update col s) =
      Raised (ValueError ("Invalid Dimension Spec JSON: " ++ text))) /\
  (forall col spec s v,
      dimension_spec_json col = Some spec -> spec <> EmptyString ->
      json_loads spec = Value v -> is_dict v = false ->
      outcome (VaexColumnInlineView.pre_update col s) =
      Raised (ValueError "Dimension Spec must be a JSON object")) /\
  (forall col spec s members,
      dimension_spec_json col = Some spec -> spec <> EmptyString ->
      json_loads spec = Value (JObj members) ->
      dict_contains "outputName" members = false ->
      outcome (VaexColumnInlineView.pre_update col s) =
      Raised (ValueError "Dimension Spec does not contain `outputName`")) /\
  (forall col spec s members,
      dimension_spec_json col = Some spec -> spec <> EmptyString ->
      json_loads spec = Value (JObj members) ->
      dict_contains "outputName" members = true ->
      dict_contains "dimension" members = false ->
      outcome (VaexColumnInlineView.pre_update col s) =
      Raised (ValueError "Dimension Spec is missing `dimension`")) /\
  (forall col spec s members output_name,
      dimension_spec_json col = Some spec -> spec <> EmptyString ->
      json_loads spec = Value (JObj members) ->
      dict_get "outputName" members = Some output_name ->
      dict_contains "dimension" members = true ->
      output_name <> JStr (column_name col) ->
      outcome (VaexColumnInlineView.pre_update col s) =
      Raised (ValueError ("`outputName` [" ++ format_value output_name
                            ++ "] unequal to `column_name` ["
                            ++ column_name col ++ "]"))) /\
  (forall text output_name column,
      NoDup [ ("Invalid Dimension Spec JSON: " ++ text)%string;
              "Dimension Spec must be a JSON object";
              "Dimension Spec does not contain `outputName`";
              "Dimension Spec is missing `dimension`";
              ("`outputName` [" ++ format_value output_name
                 ++ "] unequal to `column_name` [" ++ column ++ "]")%string ]).
Proof.
  assert (forall col spec, dimension_spec_json col = Some spec ->
                           spec <> EmptyString ->
                           truthy (dimension_spec_json col) = true) as Htruthy.
  { intros col spec -> Hne. destruct spec; [congruence | reflexivity]. }
  repeat split.
  - intros col spec s text Hs Hne Hload.
    unfold VaexColumnInlineView.pre_update.
    rewrite (Htruthy _ _ Hs Hne), Hs, Hload. reflexivity.
  - intros col spec s v Hs Hne Hload Hv.
    unfold VaexColumnInlineView.pre_update.
    rewrite (Htruthy _ _ Hs Hne), Hs, Hload.
    destruct v; try reflexivity; discriminate.
  - intros col spec s members Hs Hne Hload Hout.
    unfold VaexColumnInlineView.pre_update.
    rewrite (Htruthy _ _ Hs Hne), Hs, Hload, Hout. reflexivity.
  - intros col spec s members Hs Hne Hload Hout Hdim.
    unfold VaexColumnInlineView.pre_update.
    rewrite (Htruthy _ _ Hs Hne), Hs, Hload, Hout, Hdim. reflexivity.
  - intros col spec s members o Hs Hne Hload Hget Hdim Hdiff.
    unfold VaexColumnInlineView.pre_update.
    assert (dict_contains "outputName" members = true) as Hout
      by (apply dict_contains_get; eauto).
    rewrite (Htruthy _ _ Hs Hne), Hs, Hload, Hout, Hdim, Hget. simpl.
    destruct (py_ne_str o (column_name col)) eqn:Hneq.
    + reflexivity.
    + apply py_ne_str_false in Hneq. contradiction.
  - intros text o column.
    repeat constructor; simpl; intros H;
      repeat (destruct H as [H|H]; try discriminate H); exact H.
Qed.

End DimensionSpec.

(** ** The hooks around a write *)

Section Hooks.
Context {ext : Externals}.

(** C5. The dimension-spec check runs when a column is updated and never
    when one is added: for a column whose dimension spec is not accepted,
    the add path raises no validation error (its pre-hook is the
    framework's empty one, the record is stored and only the metrics are
    refreshed), while the update path raises a [ValueError] and the write
    is rejected with that message. *)
Theorem validation_on_update_only (col : VaexColumn) (s : Session) :
  ~ dimension_spec_accepted col ->
  hook_pre_add VaexColumnInlineView.hooks col s = mkRun (Returned tt) s [] /\
  emitted (BaseCRUDView.add VaexColumnInlineView.hooks true col s) =
    [Persisted "add"; MethodCalled "refresh_metrics" (column_name col)] /\
  exists message,
    outcome (VaexColumnInlineView.pre_update col s) = Raised (ValueError message) /\
    forall stored,
      emitted (BaseCRUDView.edit VaexColumnInlineView.hooks stored col s) =
        [Flashed message "danger"].
Proof.
  intros Hrej. split; [reflexivity|]. split.
  - unfold BaseCRUDView.add, bind, catch. simpl.
    destruct (column_refresh_metrics col); reflexivity.
  - destruct (pre_update_cases col s) as [[_ Hacc]|(message & Hraise & _)];
      [contradiction|].
    exists message. split; [exact Hraise|]. intros stored.
    destruct (pre_update_silent col s) as [Hs Hev].
    unfold BaseCRUDView.edit, bind, catch. simpl.
    rewrite Hraise. simpl. rewrite Hev. reflexivity.
Qed.

(** C6. Creating or updating a metric whose restricted flag is set makes
    exactly one permission registration, [metric_access] on the key
    [metric.get_perm()]; with the flag unset it makes none. *)
Theorem restricted_metric_registers_once (metric : VaexMetric) (s : Session) :
  perm_calls (emitted (VaexMetricInlineView.post_add metric s)) =
    (if is_restricted metric then [("metric_access", metric_get_perm metric)] else []) /\
  perm_calls (emitted (VaexMetricInlineView.post_update metric s)) =
    (if is_restricted metric then [("metric_access", metric_get_perm metric)] else []) /\
  perm_calls (emitted (BaseCRUDView.add VaexMetricInlineView.hooks true metric s)) =
    (if is_restricted metric then [("metric_access", metric_get_perm metric)] else []) /\
  perm_calls (emitted (BaseCRUDView.edit VaexMetricInlineView.hooks true metric s)) =
    (if is_restricted metric then [("metric_access", metric_get_perm metric)] else []).
Proof.
  destruct (is_restricted metric) eqn:Hflag; repeat split;
    unfold BaseCRUDView.add, BaseCRUDView.edit, bind, catch; cbn;
    unfold VaexMetricInlineView.post_add, VaexMetricInlineView.post_update;
    rewrite Hflag; reflexivity.
Qed.

(** C7, as the code has it. A successful add of a datasource registers
    [datasource_access] on [datasource.get_perm()] whatever the record
    holds (and [schema_access] when the schema is not empty), once the
    metrics were refreshed without an exception; an update only refreshes
    the metadata and registers nothing.  No flag of the record decides. *)
Theorem datasource_add_registers_update_does_not (datasource : VaexDatasource) (s : Session) :
  perm_calls (emitted (VaexDatasourceModelView.post_add datasource s)) =
    match datasource_refresh_metrics datasource with
    | Some _ => []
    | None =>
        ("datasource_access", datasource_get_perm datasource)
        :: (if truthy (schema datasource)
            then [("schema_access", datasource_schema_perm datasource)]
            else [])
    end /\
  emitted (VaexDatasourceModelView.post_update datasource s) =
    [MethodCalled "update_metadata" (name datasource)] /\
  perm_calls (emitted (BaseCRUDView.add VaexDatasourceModelView.hooks true datasource s)) =
    perm_calls (emitted (VaexDatasourceModelView.post_add datasource s)) /\
  perm_calls (emitted (BaseCRUDView.edit VaexDatasourceModelView.hooks true datasource s)) = [].
Proof.
  destruct (datasource_refresh_metrics datasource) eqn:Hrefresh,
    (datasource_update_metadata datasource) eqn:Hupdate,
    (truthy (schema datasource)) eqn:Hschema;
    repeat split;
    unfold BaseCRUDView.add, BaseCRUDView.edit, bind, catch; cbn;
    unfold VaexDatasourceModelView.post_add, VaexDatasourceModelView.post_update,
      call_method, bind; cbn;
    rewrite ?Hrefresh, ?Hupdate; cbn; rewrite ?Hschema; reflexivity.
Qed.

(** C10. Adding and updating a cluster both register [database_access] on
    the cluster's permission string, whatever the record holds, and they do
    so in the pre-hooks: the registration is the first thing that happens,
    before the record is handed to storage, and it happens even when the
    write then fails. *)
Theorem cluster_registers_before_persisting (cluster : VaexCluster) (s : Session) (stored : bool) :
  VaexClusterModelView.pre_add cluster s =
    mkRun (Returned tt) s [PermMerged "database_access" (cluster_perm cluster)] /\
  VaexClusterModelView.pre_update cluster s =
    mkRun (Returned tt) s [PermMerged "database_access" (cluster_perm cluster)] /\
  emitted (BaseCRUDView.add VaexClusterModelView.hooks stored cluster s) =
    PermMerged "database_access" (cluster_perm cluster)
    :: (if stored then [Persisted "add"] else []) /\
  emitted (BaseCRUDView.edit VaexClusterModelView.hooks stored cluster s) =
    PermMerged "database_access" (cluster_perm cluster)
    :: (if stored then [Persisted "edit"] else []).
Proof.
  unfold BaseCRUDView.add, BaseCRUDView.edit, bind, catch.
  destruct stored; repeat split; reflexivity.
Qed.

End Hooks.

(** C8, as the code has it. The cluster and datasource screens mix in
    [DeleteMixin] and hand their [_delete] to it; the column screen sets
    [can_delete] to [False], whatever its base classes provide; the metric
    screen sets no [can_delete] of its own, so it has exactly what its base
    classes provide, and neither inline screen mixes in [DeleteMixin]. *)
Theorem deletion_by_screen (inherited : option bool) :
  (has_base DeleteMixin VaexClusterModelView.class = true /\
   delete_delegate VaexClusterModelView.class = Some DeleteMixin /\
   can_delete inherited VaexClusterModelView.class = inherited) /\
  (has_base DeleteMixin VaexDatasourceModelView.class = true /\
   delete_delegate VaexDatasourceModelView.class = Some DeleteMixin /\
   can_delete inherited VaexDatasourceModelView.class = inherited) /\
  (deletion_disabled inherited VaexColumnInlineView.class = true /\
   has_base DeleteMixin VaexColumnInlineView.class = false) /\
  (can_delete inherited VaexMetricInlineView.class = inherited /\
   has_base DeleteMixin VaexMetricInlineView.class = false).
Proof.
  unfold deletion_disabled, can_delete. simpl. repeat split; reflexivity.
Qed.

(** C8 as stated fails on the metric screen: nothing in its class body
    disables deletion, so when the base classes define no [can_delete], or
    define it as [True], deletion of metrics is not disabled. *)
Lemma metric_deletion_not_disabled :
  deletion_disabled None VaexMetricInlineView.class = false /\
  deletion_disabled (Some true) VaexMetricInlineView.class = false /\
  ~ (forall inherited,
        deletion_disabled inherited VaexColumnInlineView.class = true /\
        deletion_disabled inherited VaexMetricInlineView.class = true).
Proof.
  split; [reflexivity|]. split; [reflexivity|].
  intros H. destruct (H None) as [_ Hm]. discriminate Hm.
Qed.

(** ** Traces of concatenations *)

Lemma flashes_app (a b : list Event) : flashes (a ++ b) = flashes a ++ flashes b.
Proof.
  induction a as [|ev a IH]; simpl; [reflexivity|].
  destruct ev; simpl; rewrite IH; reflexivity.
Qed.

Lemma logged_app (a b : list Event) : logged (a ++ b) = logged a ++ logged b.
Proof.
  induction a as [|ev a IH]; simpl; [reflexivity|].
  destruct ev; simpl; rewrite IH; reflexivity.
Qed.

Lemma refresh_calls_app (a b : list Event) :
  refresh_calls (a ++ b) = refresh_calls a ++ refresh_calls b.
Proof.
  induction a as [|ev a IH]; simpl; [reflexivity|].
  destruct ev; simpl; rewrite IH; reflexivity.
Qed.

Lemma commits_app (a b : list Event) : commits (a ++ b) = commits a + commits b.
Proof.
  induction a as [|ev a IH]; simpl; [reflexivity|].
  destruct ev; simpl; rewrite IH; reflexivity.
Qed.

Lemma replace_nth_middle (done : list VaexCluster) (old new : VaexCluster)
  (rest : list VaexCluster) :
  replace_nth (length done) new (done ++ old :: rest) = done ++ new :: rest.
Proof.
  induction done as [|d done IH]; simpl; [reflexivity | now rewrite IH].
Qed.

(** ** The refresh endpoints *)

Section Refresh.
Context {ext : Externals}.

(** One turn of the loop on a cluster whose refresh returns. *)
Lemma for_each_cluster_turn (refreshAll : bool) (i : nat) (cluster cluster' : VaexCluster)
  (rest : list VaexCluster) (s : Session) :
  cluster_refresh_datasources cluster refreshAll = (None, cluster') ->
  let after := set_metadata_last_refreshed cluster' (datetime_now (clock s)) in
  let r := Vaex.for_each_cluster refreshAll (S i) rest
             (mkSession (replace_nth i after (replace_nth i cluster' (clusters s)))
                (S (clock s))) in
  Vaex.for_each_cluster refreshAll i (cluster :: rest) s =
  mkRun (outcome r) (session r) (refreshed_events refreshAll (cluster, after) ++ emitted r).
Proof.
  intros Hok. cbn [Vaex.for_each_cluster].
  unfold bind, catch, Vaex.call_refresh, bind. cbn.
  rewrite Hok. cbn.
  destruct (outcome (Vaex.for_each_cluster refreshAll (S i) rest _)); reflexivity.
Qed.

(** The turn on a cluster whose refresh raises ends the loop. *)
Lemma for_each_cluster_stop (refreshAll : bool) (i : nat) (cluster cluster' : VaexCluster)
  (e : Exception) (rest : list VaexCluster) (s : Session) :
  cluster_refresh_datasources cluster refreshAll = (Some e, cluster') ->
  Vaex.for_each_cluster refreshAll i (cluster :: rest) s =
  mkRun (Returned (Some (Redirect "/vaexclustermodelview/list/")))
    (mkSession (replace_nth i cluster' (clusters s)) (clock s))
    [RefreshCalled (cluster_name cluster) refreshAll;
     Flashed ("Error while processing cluster '" ++ cluster_name cluster ++ "'"
                ++ newline ++ error_msg_from_exception e) "danger";
     Logged e].
Proof.
  intros Hko. cbn [Vaex.for_each_cluster].
  unfold bind, catch, Vaex.call_refresh, bind. cbn.
  rewrite Hko. cbn. rewrite append_empty_r. reflexivity.
Qed.

(** The loop over a prefix of clusters that all refresh: each is stamped in
    turn, and the loop goes on with what follows. *)
Lemma for_each_cluster_prefix (refreshAll : bool) (pre : list VaexCluster) :
  forall (rest done : list VaexCluster) (s : Session),
    clusters s = done ++ pre ++ rest ->
    (forall c, In c pre -> refresh_succeeds refreshAll c) ->
    exists pre',
      length pre' = length pre /\
      (forall j c, nth_error pre j = Some c ->
         exists c2, nth_error pre' j = Some c2 /\
                    stamped refreshAll (clock s + j) c c2) /\
      let r := Vaex.for_each_cluster refreshAll (length done) (pre ++ rest) s in
      let r2 := Vaex.for_each_cluster refreshAll (length done + length pre) rest
                  (mkSession (done ++ pre' ++ rest) (clock s + length pre)) in
      outcome r = outcome r2 /\
      session r = session r2 /\
      emitted r = flat_map (refreshed_events refreshAll) (combine pre pre') ++ emitted r2.
Proof.
  induction pre as [|c pre IH]; intros rest done s Hrows Hall.
  - exists []. split; [reflexivity|]. split.
    + intros j c Hj. destruct j; discriminate.
    + cbn. rewrite !Nat.add_0_r. simpl in Hrows. rewrite <- Hrows.
      destruct s; auto.
  - destruct (Hall c (or_introl eq_refl)) as [c' Hok].
    set (after := set_metadata_last_refreshed c' (datetime_now (clock s))).
    set (s1 := mkSession (replace_nth (length done) after
                            (replace_nth (length done) c' (clusters s)))
                 (S (clock s))).
    assert (clusters s1 = (done ++ [after]) ++ pre ++ rest) as Hrows1.
    { unfold s1. cbn. rewrite Hrows. cbn. rewrite !replace_nth_middle.
      now rewrite <- app_assoc. }
    destruct (IH rest (done ++ [after]) s1 Hrows1) as (pre' & Hlen & Hstamp & Hrun).
    { intros c0 Hc0. apply Hall. now right. }
    exists (after :: pre'). split; [cbn; now rewrite Hlen|]. split.
    + intros j c0 Hj. destruct j as [|j].
      * injection Hj as <-. exists after. split; [reflexivity|].
        exists c'. rewrite Nat.add_0_r. auto.
      * destruct (Hstamp j c0 Hj) as (c2 & Hc2 & Hst).
        exists c2. split; [exact Hc2|].
        replace (clock s + S j) with (clock s1 + j) by (unfold s1; cbn; lia).
        exact Hst.
    + cbn zeta in Hrun |- *. cbn [app].
      rewrite (for_each_cluster_turn refreshAll (length done) c c' (pre ++ rest) s Hok).
      fold after. fold s1. cbn [outcome session emitted].
      rewrite length_app in Hrun. cbn [length] in Hrun.
      replace (length done + 1) with (S (length done)) in Hrun by lia.
      replace (S (length done) + length pre) with (length done + length (c :: pre))
        in Hrun by (cbn; lia).
      replace (clock s1 + length pre) with (clock s + length (c :: pre))
        in Hrun by (unfold s1; cbn; lia).
      rewrite <- app_assoc in Hrun. cbn [app] in Hrun.
      destruct Hrun as (Hout & Hses & Hev).
      split; [exact Hout|]. split; [exact Hses|].
      rewrite Hev. cbn [combine flat_map]. now rewrite <- app_assoc.
Qed.

(** What the turns of refreshed clusters leave in the trace. *)
Lemma refreshed_events_trace (refreshAll : bool) (pre pre' : list VaexCluster) :
  length pre' = length pre ->
  let evs := flat_map (refreshed_events refreshAll) (combine pre pre') in
  refresh_calls evs = map (fun c => (cluster_name c, refreshAll)) pre /\
  flashes evs = map (fun c2 => (refreshed_notice c2, "info")) pre' /\
  logged evs = [] /\
  commits evs = 0.
Proof.
  revert pre'. induction pre as [|c pre IH]; intros [|c2 pre'] Hlen;
    try discriminate; cbn.
  - auto.
  - destruct (IH pre') as (Hc & Hf & Hl & Hm); [now injection Hlen|].
    cbn zeta in *. rewrite Hc, Hf, Hl, Hm. auto.
Qed.

End Refresh.

Section RefreshEndpoints.
Context {ext : Externals}.

(** The endpoint in terms of its loop. *)
Lemma refresh_datasources_by_loop (refreshAll : bool) (s : Session) :
  let r := Vaex.for_each_cluster refreshAll 0 (clusters s) s in
  Vaex.refresh_datasources refreshAll s =
  match outcome r with
  | Raised e => mkRun (Raised e) (session r) (emitted r)
  | Returned (Some response) => mkRun (Returned response) (session r) (emitted r)
  | Returned None =>
      mkRun (Returned (Redirect "/vaexdatasourcemodelview/list/")) (session r)
        (emitted r ++ [Committed])
  end.
Proof.
  unfold Vaex.refresh_datasources, bind, query_all_clusters. cbn.
  destruct (outcome (Vaex.for_each_cluster refreshAll 0 (clusters s) s)) as [[response|]|e];
    cbn; rewrite ?app_nil_r; reflexivity.
Qed.

(** C3. When every cluster's refresh call succeeds, each cluster's refresh
    operation is invoked once, with the mode flag and in storage order; each
    cluster's last-refreshed timestamp is set to the reading of the clock
    taken after its call; one success notice per cluster is queued, naming
    it, with severity [info]; nothing is logged; exactly one commit is
    performed, after the loop; and the response redirects to the datasource
    list. *)
Theorem refresh_all_succeed (refreshAll : bool) (s : Session) :
  (forall c, In c (clusters s) -> refresh_succeeds refreshAll c) ->
  let r := Vaex.refresh_datasources refreshAll s in
  outcome r = Returned (Redirect "/vaexdatasourcemodelview/list/") /\
  length (clusters (session r)) = length (clusters s) /\
  (forall j c, nth_error (clusters s) j = Some c ->
     exists c2, nth_error (clusters (session r)) j = Some c2 /\
                stamped refreshAll (clock s + j) c c2) /\
  refresh_calls (emitted r) = map (fun c => (cluster_name c, refreshAll)) (clusters s) /\
  flashes (emitted r) =
    map (fun c2 => (refreshed_notice c2, "info")) (clusters (session r)) /\
  logged (emitted r) = [] /\
  commits (emitted r) = 1 /\
  exists before, emitted r = before ++ [Committed].
Proof.
  intros Hall.
  destruct (for_each_cluster_prefix refreshAll (clusters s) [] [] s)
    as (rows' & Hlen & Hstamp & Hrun); [now rewrite app_nil_r | exact Hall |].
  cbn zeta in Hrun. rewrite !app_nil_r in Hrun. cbn in Hrun.
  destruct Hrun as (Hout & Hses & Hev). rewrite ?app_nil_r in Hev.
  cbn zeta. rewrite refresh_datasources_by_loop. cbn zeta. rewrite Hout.
  cbn [outcome session emitted]. rewrite Hses, Hev. cbn [clusters].
  destruct (refreshed_events_trace refreshAll (clusters s) rows' Hlen)
    as (Hcalls & Hflash & Hlog & Hcommits).
  cbn zeta in Hcalls, Hflash, Hlog, Hcommits.
  rewrite refresh_calls_app, flashes_app, logged_app, commits_app.
  rewrite Hcalls, Hflash, Hlog, Hcommits. cbn. rewrite !app_nil_r.
  repeat split; auto. eexists; reflexivity.
Qed.

(** C2. When some cluster's refresh call raises, with [b] the first such
    cluster: every cluster before [b] has its last-refreshed timestamp set
    and a success notice queued; [b] gets one failure message, naming the
    cluster and the error with severity [danger], queued and then logged;
    the clusters after [b] are left as they were and no refresh is invoked
    past [b] (which stays as its failed call left it); no commit is
    performed; and the response redirects to the cluster list. *)
Theorem refresh_stops_at_first_failure (refreshAll : bool) (s : Session)
  (pre : list VaexCluster) (b b' : VaexCluster) (post : list VaexCluster) (e : Exception) :
  clusters s = pre ++ b :: post ->
  (forall c, In c pre -> refresh_succeeds refreshAll c) ->
  cluster_refresh_datasources b refreshAll = (Some e, b') ->
  let r := Vaex.refresh_datasources refreshAll s in
  let failure :=
    ("Error while processing cluster '" ++ cluster_name b ++ "'"
       ++ newline ++ error_msg_from_exception e)%string in
  outcome r = Returned (Redirect "/vaexclustermodelview/list/") /\
  (exists pre',
      clusters (session r) = pre' ++ b' :: post /\
      length pre' = length pre /\
      (forall j c, nth_error pre j = Some c ->
         exists c2, nth_error pre' j = Some c2 /\
                    stamped refreshAll (clock s + j) c c2) /\
      flashes (emitted r) =
        map (fun c2 => (refreshed_notice c2, "info")) pre' ++ [(failure, "danger")]) /\
  refresh_calls (emitted r) =
    map (fun c => (cluster_name c, refreshAll)) (pre ++ [b]) /\
  logged (emitted r) = [e] /\
  (exists before, emitted r = before ++ [Flashed failure "danger"; Logged e]) /\
  commits (emitted r) = 0.
Proof.
  intros Hrows Hall Hko.
  destruct (for_each_cluster_prefix refreshAll pre (b :: post) [] s)
    as (pre' & Hlen & Hstamp & Hrun); [exact Hrows | exact Hall |].
  cbn zeta in Hrun. cbn [app length Nat.add] in Hrun.
  rewrite (for_each_cluster_stop refreshAll _ b b' e post _ Hko) in Hrun.
  cbn [outcome session emitted] in Hrun. destruct Hrun as (Hout & Hses & Hev).
  cbn zeta. rewrite refresh_datasources_by_loop. cbn zeta.
  rewrite Hrows, Hout. cbn [outcome session emitted]. rewrite Hses, Hev.
  cbn [clusters].
  destruct (refreshed_events_trace refreshAll pre pre' Hlen)
    as (Hcalls & Hflash & Hlog & Hcommits).
  cbn zeta in Hcalls, Hflash, Hlog, Hcommits.
  rewrite refresh_calls_app, flashes_app, logged_app, commits_app.
  rewrite Hcalls, Hflash, Hlog, Hcommits. cbn.
  split; [reflexivity|]. split.
  { exists pre'. rewrite <- Hlen, replace_nth_middle. auto. }
  split; [now rewrite map_app|]. split; [reflexivity|]. split; [|reflexivity].
  exists (flat_map (refreshed_events refreshAll) (combine pre pre')
            ++ [RefreshCalled (cluster_name b) refreshAll]).
  now rewrite <- app_assoc.
Qed.

(** C9. Scanning for new datasources is the refresh endpoint run with
    [refreshAll] false: for every session (every list of clusters and every
    behaviour of their refresh calls) the two give the same response, leave
    the same clusters and timestamps, and emit the same trace, hence the same
    messages, log records and commits. *)
Theorem scan_new_is_refresh_new_only (s : Session) :
  Vaex.scan_new_datasources s = Vaex.refresh_datasources false s /\
  outcome (Vaex.scan_new_datasources s) = outcome (Vaex.refresh_datasources false s) /\
  clusters (session (Vaex.scan_new_datasources s)) =
    clusters (session (Vaex.refresh_datasources false s)) /\
  flashes (emitted (Vaex.scan_new_datasources s)) =
    flashes (emitted (Vaex.refresh_datasources false s)) /\
  commits (emitted (Vaex.scan_new_datasources s)) =
    commits (emitted (Vaex.refresh_datasources false s)) /\
  refresh_calls (emitted (Vaex.scan_new_datasources s)) =
    refresh_calls (emitted (Vaex.refresh_datasources false s)).
Proof.
  unfold Vaex.scan_new_datasources. repeat split.
Qed.

End RefreshEndpoints.

(** * The views run on concrete records *)

Section Runs.
#[local] Existing Instance Sample.externals.

(** The spec [{"outputName":"revenue","dimension":"amount"}] on the column
    [revenue] is accepted, and the check passes. *)
Lemma pre_update_passes_iff_accepted_witness :
  dimension_spec_accepted (Sample.revenue Sample.spec_revenue) /\
  outcome (VaexColumnInlineView.pre_update (Sample.revenue Sample.spec_revenue)
             Sample.start) = Returned tt.
Proof.
  assert (dimension_spec_accepted (Sample.revenue Sample.spec_revenue)) as Hacc.
  { right. exists [("outputName", JStr "revenue"); ("dimension", JStr "amount")].
    repeat split; vm_compute; reflexivity. }
  split; [exact Hacc|].
  apply (pre_update_passes_iff_accepted (Sample.revenue Sample.spec_revenue) Sample.start).
  exact Hacc.
Defined.

(** The five failures, each on a document of its own: text that is no JSON,
    an array, an object without [outputName], one without [dimension], and
    one whose [outputName] is [cost] on the column [revenue]. *)
Lemma pre_update_reports_first_failure_witness :
  outcome (VaexColumnInlineView.pre_update (Sample.revenue "not json") Sample.start) =
    Raised (ValueError "Invalid Dimension Spec JSON: malformed JSON text") /\
  outcome (VaexColumnInlineView.pre_update (Sample.revenue Sample.spec_array) Sample.start) =
    Raised (ValueError "Dimension Spec must be a JSON object") /\
  outcome (VaexColumnInlineView.pre_update (Sample.revenue Sample.spec_no_output_name)
             Sample.start) =
    Raised (ValueError "Dimension Spec does not contain `outputName`") /\
  outcome (VaexColumnInlineView.pre_update (Sample.revenue Sample.spec_no_dimension)
             Sample.start) =
    Raised (ValueError "Dimension Spec is missing `dimension`") /\
  outcome (VaexColumnInlineView.pre_update (Sample.revenue Sample.spec_cost) Sample.start) =
    Raised (ValueError "`outputName` [cost] unequal to `column_name` [revenue]").
Proof.
  destruct pre_update_reports_first_failure as (Hparse & Hobject & Hout & Hdim & Hne & _).
  split.
  { apply (Hparse (Sample.revenue "not json") "not json" Sample.start "malformed JSON text");
      [reflexivity | discriminate | vm_compute; reflexivity]. }
  split.
  { apply (Hobject (Sample.revenue Sample.spec_array) Sample.spec_array Sample.start
             (JArr [JStr "a"; JStr "b"]));
      [reflexivity | discriminate | vm_compute; reflexivity | reflexivity]. }
  split.
  { apply (Hout (Sample.revenue Sample.spec_no_output_name) Sample.spec_no_output_name
             Sample.start [("dimension", JStr "amount")]);
      [reflexivity | discriminate | vm_compute; reflexivity | reflexivity]. }
  split.
  { apply (Hdim (Sample.revenue Sample.spec_no_dimension) Sample.spec_no_dimension
             Sample.start [("outputName", JStr "revenue")]);
      [reflexivity | discriminate | vm_compute; reflexivity | reflexivity | reflexivity]. }
  apply (Hne (Sample.revenue Sample.spec_cost) Sample.spec_cost Sample.start
           [("outputName", JStr "cost"); ("dimension", JStr "amount")] (JStr "cost"));
    [reflexivity | discriminate | vm_compute; reflexivity | reflexivity | reflexivity
    | discriminate].
Defined.

(** A column whose dimension spec is an array: adding it goes through,
    updating it is rejected. *)
Lemma validation_on_update_only_witness :
  ~ dimension_spec_accepted (Sample.revenue Sample.spec_array) /\
  hook_pre_add VaexColumnInlineView.hooks (Sample.revenue Sample.spec_array) Sample.start =
    mkRun (Returned tt) Sample.start [] /\
  emitted (BaseCRUDView.add VaexColumnInlineView.hooks true
             (Sample.revenue Sample.spec_array) Sample.start) =
    [Persisted "add"; MethodCalled "refresh_metrics" "revenue"] /\
  exists message,
    outcome (VaexColumnInlineView.pre_update (Sample.revenue Sample.spec_array)
               Sample.start) = Raised (ValueError message) /\
    forall stored,
      emitted (BaseCRUDView.edit VaexColumnInlineView.hooks stored
                 (Sample.revenue Sample.spec_array) Sample.start) =
        [Flashed message "danger"].
Proof.
  assert (~ dimension_spec_accepted (Sample.revenue Sample.spec_array)) as Hrej.
  { intros [H|(members & H & _)]; [discriminate H|].
    vm_compute in H. discriminate H. }
  split; [exact Hrej|].
  exact (validation_on_update_only (Sample.revenue Sample.spec_array) Sample.start Hrej).
Defined.

(** Clusters [A] and [C] both refresh: two stamps, two notices, one commit,
    and the datasource list. *)
Lemma refresh_all_succeed_witness :
  (forall c, In c [Sample.cluster_A; Sample.cluster_C] -> refresh_succeeds true c) /\
  outcome (Vaex.refresh_datasources true
             (mkSession [Sample.cluster_A; Sample.cluster_C] 0)) =
    Returned (Redirect "/vaexdatasourcemodelview/list/") /\
  clusters (session (Vaex.refresh_datasources true
                       (mkSession [Sample.cluster_A; Sample.cluster_C] 0))) =
    [mkCluster "A" (Some 1000%Z); mkCluster "C" (Some 1001%Z)] /\
  refresh_calls (emitted (Vaex.refresh_datasources true
                            (mkSession [Sample.cluster_A; Sample.cluster_C] 0))) =
    [("A", true); ("C", true)] /\
  flashes (emitted (Vaex.refresh_datasources true
                      (mkSession [Sample.cluster_A; Sample.cluster_C] 0))) =
    [("Refreshed metadata from cluster [A]", "info");
     ("Refreshed metadata from cluster [C]", "info")] /\
  commits (emitted (Vaex.refresh_datasources true
                      (mkSession [Sample.cluster_A; Sample.cluster_C] 0))) = 1.
Proof.
  assert (forall c, In c [Sample.cluster_A; Sample.cluster_C] -> refresh_succeeds true c)
    as Hall.
  { intros c [<-|[<-|[]]]; eexists; reflexivity. }
  split; [exact Hall|].
  destruct (refresh_all_succeed true (mkSession [Sample.cluster_A; Sample.cluster_C] 0) Hall)
    as (Hout & _ & _ & Hcalls & _ & _ & Hcommits & _).
  split; [exact Hout|]. split; [reflexivity|]. split; [exact Hcalls|].
  split; [reflexivity | exact Hcommits].
Defined.

(** Clusters [A], [B], [C] where [B] is unreachable: [A] is stamped and
    announced, [B] is reported and logged, [C] is never tried, nothing is
    committed, and the response is the cluster list. *)
Lemma refresh_stops_at_first_failure_witness :
  (forall c, In c [Sample.cluster_A] -> refresh_succeeds true c) /\
  cluster_refresh_datasources Sample.cluster_B true =
    (Some (mkException "ConnectionError" "connection refused"), Sample.cluster_B) /\
  outcome (Vaex.refresh_datasources true
             (mkSession [Sample.cluster_A; Sample.cluster_B; Sample.cluster_C] 0)) =
    Returned (Redirect "/vaexclustermodelview/list/") /\
  clusters (session (Vaex.refresh_datasources true
                       (mkSession [Sample.cluster_A; Sample.cluster_B; Sample.cluster_C] 0))) =
    [mkCluster "A" (Some 1000%Z); Sample.cluster_B; Sample.cluster_C] /\
  refresh_calls (emitted (Vaex.refresh_datasources true
                            (mkSession [Sample.cluster_A; Sample.cluster_B; Sample.cluster_C] 0))) =
    [("A", true); ("B", true)] /\
  flashes (emitted (Vaex.refresh_datasources true
                      (mkSession [Sample.cluster_A; Sample.cluster_B; Sample.cluster_C] 0))) =
    [("Refreshed metadata from cluster [A]", "info");
     (("Error while processing cluster 'B'" ++ newline ++ "connection refused")%string,
      "danger")] /\
  logged (emitted (Vaex.refresh_datasources true
                     (mkSession [Sample.cluster_A; Sample.cluster_B; Sample.cluster_C] 0))) =
    [mkException "ConnectionError" "connection refused"] /\
  commits (emitted (Vaex.refresh_datasources true
                      (mkSession [Sample.cluster_A; Sample.cluster_B; Sample.cluster_C] 0))) = 0.
Proof.
  assert (forall c, In c [Sample.cluster_A] -> refresh_succeeds true c) as Hall.
  { intros c [<-|[]]; eexists; reflexivity. }
  split; [exact Hall|]. split; [reflexivity|].
  destruct (refresh_stops_at_first_failure true
              (mkSession [Sample.cluster_A; Sample.cluster_B; Sample.cluster_C] 0)
              [Sample.cluster_A] Sample.cluster_B Sample.cluster_B [Sample.cluster_C]
              (mkException "ConnectionError" "connection refused")
              eq_refl Hall eq_refl)
    as (Hout & _ & Hcalls & Hlog & _ & Hcommits).
  split; [exact Hout|]. split; [reflexivity|]. split; [exact Hcalls|].
  split; [reflexivity|]. split; [exact Hlog | exact Hcommits].
Defined.

(** C7 as stated fails.  On the datasource [sales] a successful add
    registers [datasource_access] and a successful update registers nothing,
    although the record is the same: no flag of the record, restricted or
    other, can decide both. *)
Lemma datasource_registration_follows_no_flag :
  perm_calls (emitted (BaseCRUDView.add VaexDatasourceModelView.hooks true
                         (mkDatasource "sales" None) Sample.start)) =
    [("datasource_access", "sales")] /\
  perm_calls (emitted (BaseCRUDView.edit VaexDatasourceModelView.hooks true
                         (mkDatasource "sales" None) Sample.start)) = [] /\
  ~ exists restricted : VaexDatasource -> bool,
      forall datasource s,
        (registers (emitted (BaseCRUDView.add VaexDatasourceModelView.hooks true
                               datasource s)) = true
         <-> restricted datasource = true) /\
        (registers (emitted (BaseCRUDView.edit VaexDatasourceModelView.hooks true
                               datasource s)) = true
         <-> restricted datasource = true).
Proof.
  split; [reflexivity|]. split; [reflexivity|].
  intros [restricted H].
  destruct (H (mkDatasource "sales" None) Sample.start) as [[Hadd _] [_ Hedit]].
  assert (restricted (mkDatasource "sales" None) = true) as Hflag
    by (apply Hadd; reflexivity).
  specialize (Hedit Hflag). discriminate Hedit.
Qed.

End Runs.

(** * Further properties of the refresh endpoints *)

Lemma perm_calls_app (a b : list Event) :
  perm_calls (a ++ b) = perm_calls a ++ perm_calls b.
Proof.
  induction a as [|ev a IH]; simpl; [reflexivity|].
  destruct ev; simpl; rewrite IH; reflexivity.
Qed.

Section RefreshInGeneral.
Context {ext : Externals}.

(** Either every cluster of a list refreshes, or one of them is the first
    that does not. *)
Lemma all_succeed_or_first_failure (refreshAll : bool) (rows : list VaexCluster) :
  (forall c, In c rows -> refresh_succeeds refreshAll c) \/
  (exists pre b b' post e, fails_first refreshAll rows pre b b' post e).
Proof.
  induction rows as [|c rows IH].
  - left. intros c [].
  - destruct (cluster_refresh_datasources c refreshAll) as [[e|] c'] eqn:Hc.
    + right. exists [], c, c', rows, e. repeat split; [|exact Hc]. intros c0 [].
    + destruct IH as [Hall|(pre & b & b' & post & e & Hrows & Hpre & Hb)].
      * left. intros c0 [<-|Hin]; [now exists c' | now apply Hall].
      * right. exists (c :: pre), b, b', post, e. repeat split.
        -- cbn. now rewrite Hrows.
        -- intros c0 [<-|Hin]; [now exists c' | now apply Hpre].
        -- exact Hb.
Qed.


(** The whole run of the endpoint, in closed form, in each of the two
    cases. *)
Lemma refresh_datasources_run (refreshAll : bool) (s : Session) :
  (exists rows',
      (forall c, In c (clusters s) -> refresh_succeeds refreshAll c) /\
      length rows' = length (clusters s) /\
      Vaex.refresh_datasources refreshAll s =
        mkRun (Returned (Redirect "/vaexdatasourcemodelview/list/"))
          (mkSession rows' (clock s + length (clusters s)))
          (flat_map (refreshed_events refreshAll) (combine (clusters s) rows')
             ++ [Committed])) \/
  (exists pre b b' post e pre',
      fails_first refreshAll (clusters s) pre b b' post e /\
      length pre' = length pre /\
      Vaex.refresh_datasources refreshAll s =
        mkRun (Returned (Redirect "/vaexclustermodelview/list/"))
          (mkSession (pre' ++ b' :: post) (clock s + length pre))
          (flat_map (refreshed_events refreshAll) (combine pre pre')
             ++ [RefreshCalled (cluster_name b) refreshAll;
                 Flashed ("Error while processing cluster '" ++ cluster_name b ++ "'"
                            ++ newline ++ error_msg_from_exception e) "danger";
                 Logged e])).
Proof.
  destruct (all_succeed_or_first_failure refreshAll (clusters s))
    as [Hall|(pre & b & b' & post & e & Hfail)].
  - left.
    destruct (for_each_cluster_prefix refreshAll (clusters s) [] [] s)
      as (rows' & Hlen & _ & Hrun); [now rewrite app_nil_r | exact Hall |].
    cbn zeta in Hrun. rewrite !app_nil_r in Hrun. cbn in Hrun.
    destruct Hrun as (Hout & Hses & Hev). rewrite ?app_nil_r in Hev.
    exists rows'. split; [exact Hall|]. split; [exact Hlen|].
    rewrite refresh_datasources_by_loop. cbn zeta. rewrite Hout, Hses, Hev.
    reflexivity.
  - right. pose proof Hfail as (Hrows & Hpre & Hb).
    destruct (for_each_cluster_prefix refreshAll pre (b :: post) [] s)
      as (pre' & Hlen & _ & Hrun); [exact Hrows | exact Hpre |].
    cbn zeta in Hrun. cbn [app length Nat.add] in Hrun.
    rewrite (for_each_cluster_stop refreshAll _ b b' e post _ Hb) in Hrun.
    cbn [outcome session emitted clusters clock] in Hrun.
    destruct Hrun as (Hout & Hses & Hev).
    exists pre, b, b', post, e, pre'. split; [exact Hfail|]. split; [exact Hlen|].
    rewrite refresh_datasources_by_loop. cbn zeta.
    rewrite Hrows, Hout, Hses, Hev.
    rewrite <- Hlen at 1. rewrite replace_nth_middle. reflexivity.
Qed.

End RefreshInGeneral.

Section RefreshExtras.
Context {ext : Externals}.

Lemma refreshed_events_are_refresh_events (refreshAll : bool)
  (turns : list (VaexCluster * VaexCluster)) :
  forallb is_refresh_event (flat_map (refreshed_events refreshAll) turns) = true.
Proof.
  induction turns as [|turn turns IH]; [reflexivity | exact IH].
Qed.

Lemma count_category_notices (category : string) (rows : list VaexCluster) :
  count_category category (map (fun c2 => (refreshed_notice c2, "info")) rows) =
  if String.eqb "info" category then length rows else 0.
Proof.
  unfold count_category.
  destruct (String.eqb "info" category) eqn:Hcat;
    induction rows as [|c rows IH]; cbn [map filter snd length];
    rewrite ?Hcat; cbn [length]; congruence.
Qed.

Lemma count_category_app (category : string) (a b : list (string * string)) :
  count_category category (a ++ b) = count_category category a + count_category category b.
Proof.
  unfold count_category. now rewrite filter_app, length_app.
Qed.


(** X2. Clusters are tried in storage order, without skipping and each at
    most once, every call with the endpoint's flag: the calls made are a prefix of
    the loaded clusters.  Each cluster tried gets exactly one flashed
    message; an exception is logged only together with a message of severity
    [danger], and there is at most one. *)
Theorem refresh_tries_a_prefix (refreshAll : bool) (s : Session) :
  let r := Vaex.refresh_datasources refreshAll s in
  let tried := length (refresh_calls (emitted r)) in
  refresh_calls (emitted r) =
    firstn tried (map (fun c => (cluster_name c, refreshAll)) (clusters s)) /\
  tried <= length (clusters s) /\
  length (flashes (emitted r)) = tried /\
  length (logged (emitted r)) = count_category "danger" (flashes (emitted r)) /\
  count_category "danger" (flashes (emitted r)) <= 1.
Proof.
  cbn zeta.
  destruct (refresh_datasources_run refreshAll s)
    as [(rows' & Hall & Hlen & Hrun)
       |(pre & b & b' & post & e & pre' & (Hrows & _ & _) & Hlen & Hrun)];
    rewrite Hrun; cbn [outcome emitted];
    rewrite refresh_calls_app, flashes_app, logged_app;
    [destruct (refreshed_events_trace refreshAll (clusters s) rows' Hlen)
       as (Hcalls & Hflash & Hlog & _)
    |destruct (refreshed_events_trace refreshAll pre pre' Hlen)
       as (Hcalls & Hflash & Hlog & _)];
    cbn zeta in Hcalls, Hflash, Hlog; rewrite Hcalls, Hflash, Hlog; cbn;
    rewrite ?app_nil_r, ?count_category_app, ?count_category_notices; cbn.
  - split; [now rewrite firstn_all|].
    rewrite !length_map. repeat split; auto; lia.
  - rewrite Hrows, map_app. cbn [map]. split.
    + rewrite length_app. cbn [length].
      rewrite firstn_app_2. reflexivity.
    + rewrite !length_app, !length_map. cbn [length]. repeat split; auto; lia.
Qed.

(** X3. What a refresh pass leaves alone, and what it counts: the endpoint
    itself emits nothing but refresh calls, flashed messages, log records and
    commits (it registers no permission, writes no record through a form and
    calls no other connector method); the session holds as many clusters after as
    before; and the clock is read exactly once per success notice. *)
Theorem refresh_keeps_to_its_own (refreshAll : bool) (s : Session) :
  let r := Vaex.refresh_datasources refreshAll s in
  forallb is_refresh_event (emitted r) = true /\
  perm_calls (emitted r) = [] /\
  length (clusters (session r)) = length (clusters s) /\
  clock (session r) = clock s + count_category "info" (flashes (emitted r)).
Proof.
  cbn zeta.
  assert (forall evs, forallb is_refresh_event evs = true -> perm_calls evs = [])
    as Hperm.
  { induction evs as [|ev evs IH]; [reflexivity|].
    destruct ev; cbn; try discriminate; exact IH. }
  destruct (refresh_datasources_run refreshAll s)
    as [(rows' & Hall & Hlen & Hrun)
       |(pre & b & b' & post & e & pre' & (Hrows & _ & _) & Hlen & Hrun)];
    rewrite Hrun; cbn [outcome emitted session clusters clock];
    [destruct (refreshed_events_trace refreshAll (clusters s) rows' Hlen)
       as (_ & Hflash & _ & _)
    |destruct (refreshed_events_trace refreshAll pre pre' Hlen)
       as (_ & Hflash & _ & _)];
    cbn zeta in Hflash;
    rewrite flashes_app, Hflash, count_category_app, count_category_notices;
    cbn.
  - assert (forallb is_refresh_event
              (flat_map (refreshed_events refreshAll) (combine (clusters s) rows')
                 ++ [Committed]) = true) as Hown
      by now rewrite forallb_app, refreshed_events_are_refresh_events.
    split; [exact Hown|]. split; [now apply Hperm|].
    rewrite Hlen. split; [reflexivity | lia].
  - match goal with
    | |- forallb is_refresh_event ?evs = true /\ _ =>
        assert (forallb is_refresh_event evs = true) as Hown
          by now rewrite forallb_app, refreshed_events_are_refresh_events
    end.
    split; [exact Hown|]. split; [now apply Hperm|].
    rewrite Hrows, !length_app, Hlen. cbn. split; [reflexivity | lia].
Qed.

End RefreshExtras.

Section RefreshFlag.
Context {ext : Externals}.

(** The loop under the two flags, when the clusters do not tell them
    apart. *)
Lemma for_each_cluster_either_flag (todo : list VaexCluster) :
  (forall c, cluster_refresh_datasources c true = cluster_refresh_datasources c false) ->
  forall (i : nat) (s : Session),
    let full := Vaex.for_each_cluster true i todo s in
    let scan := Vaex.for_each_cluster false i todo s in
    outcome full = outcome scan /\
    session full = session scan /\
    flashes (emitted full) = flashes (emitted scan) /\
    logged (emitted full) = logged (emitted scan) /\
    commits (emitted full) = commits (emitted scan) /\
    map fst (refresh_calls (emitted full)) = map fst (refresh_calls (emitted scan)).
Proof.
  intros Hsame. induction todo as [|c todo IH]; intros i s; cbn zeta.
  - repeat split.
  - destruct (cluster_refresh_datasources c true) as [[e|] c'] eqn:Hfull;
      pose proof (Hsame c) as Hscan; rewrite Hfull in Hscan; symmetry in Hscan.
    + rewrite (for_each_cluster_stop true i c c' e todo s Hfull),
        (for_each_cluster_stop false i c c' e todo s Hscan).
      repeat split.
    + rewrite (for_each_cluster_turn true i c c' todo s Hfull),
        (for_each_cluster_turn false i c c' todo s Hscan).
      cbn zeta. cbn [outcome session emitted].
      match goal with
      | |- context [Vaex.for_each_cluster true (S i) todo ?s1] =>
          destruct (IH (S i) s1) as (Hout & Hses & Hflash & Hlog & Hcommit & Hcalls)
      end.
      cbn zeta in Hout, Hses, Hflash, Hlog, Hcommit, Hcalls.
      rewrite !flashes_app, !logged_app, !commits_app, !refresh_calls_app, !map_app.
      rewrite Hout, Hses, Hflash, Hlog, Hcommit, Hcalls. repeat split.
Qed.

(** X4. The endpoints only pass the flag on to the clusters: when no cluster
    behaves differently under the two flags, scanning for new datasources
    and the full refresh give the same response, leave the same session, and
    queue, log and commit the same; they call the same clusters in the same
    order. *)
Theorem refresh_flag_is_only_forwarded (s : Session) :
  (forall c, cluster_refresh_datasources c true = cluster_refresh_datasources c false) ->
  let full := Vaex.refresh_datasources true s in
  let scan := Vaex.scan_new_datasources s in
  outcome full = outcome scan /\
  session full = session scan /\
  flashes (emitted full) = flashes (emitted scan) /\
  logged (emitted full) = logged (emitted scan) /\
  commits (emitted full) = commits (emitted scan) /\
  map fst (refresh_calls (emitted full)) = map fst (refresh_calls (emitted scan)).
Proof.
  intros Hsame. cbn zeta. unfold Vaex.scan_new_datasources.
  rewrite !refresh_datasources_by_loop. cbn zeta.
  destruct (for_each_cluster_either_flag (clusters s) Hsame 0 s)
    as (Hout & Hses & Hflash & Hlog & Hcommit & Hcalls).
  cbn zeta in Hout, Hses, Hflash, Hlog, Hcommit, Hcalls.
  rewrite Hout.
  destruct (outcome (Vaex.for_each_cluster false 0 (clusters s) s)) as [[response|]|e];
    cbn [outcome session emitted];
    rewrite ?flashes_app, ?logged_app, ?commits_app, ?refresh_calls_app, ?map_app;
    rewrite Hses, Hflash, Hlog, Hcommit, Hcalls; repeat split.
Qed.

End RefreshFlag.

(** * Further properties of the hooks *)

Section HookExtras.
Context {ext : Externals}.

(** X5. The dimension-spec check only returns or raises: it queues no
    message, registers nothing, calls no connector method, leaves the
    session as it was, and its verdict on a column is the same in every
    session. *)
Theorem dimension_spec_check_is_pure (col : VaexColumn) (s s' : Session) :
  session (VaexColumnInlineView.pre_update col s) = s /\
  emitted (VaexColumnInlineView.pre_update col s) = [] /\
  outcome (VaexColumnInlineView.pre_update col s) =
    outcome (VaexColumnInlineView.pre_update col s').
Proof.
  destruct (pre_update_silent col s) as [Hs Hev].
  split; [exact Hs|]. split; [exact Hev|]. apply pre_update_outcome_any.
Qed.


End HookExtras.

(** * Properties of the declarative configuration *)

(** X7. Labels of the fields a screen shows. On the column and cluster
    screens every field of the list, add and edit forms has a label; on the
    metric screen every such field but [d3format] has one; on the datasource
    screen [name] is the only shown field with a label. *)
Theorem shown_fields_and_their_labels (field : string) :
  (In field (VaexColumnInlineView.list_columns ++ VaexColumnInlineView.add_columns
               ++ VaexColumnInlineView.edit_columns) ->
   exists label, lookup field VaexColumnInlineView.label_columns = Some label) /\
  (In field (VaexClusterModelView.list_columns ++ VaexClusterModelView.add_columns
               ++ VaexClusterModelView.edit_columns) ->
   exists label, lookup field VaexClusterModelView.label_columns = Some label) /\
  (In field (VaexMetricInlineView.list_columns ++ VaexMetricInlineView.add_columns
               ++ VaexMetricInlineView.edit_columns) ->
   (lookup field VaexMetricInlineView.label_columns = None <-> field = "d3format")) /\
  (In field (VaexDatasourceModelView.list_columns ++ VaexDatasourceModelView.add_columns
               ++ VaexDatasourceModelView.edit_columns
               ++ VaexDatasourceModelView.show_columns) ->
   (lookup field VaexDatasourceModelView.label_columns = None <-> field <> "name")).
Proof.
  split; [|split; [|split]]; intros Hshown; cbn in Hshown;
    repeat (destruct Hshown as [<-|Hshown];
            [cbn; first [ eexists; reflexivity
                        | split; [discriminate | intros Hq; discriminate Hq]
                        | split; [intros _; discriminate | reflexivity]
                        | split; [reflexivity | intros Hq; now contradiction Hq]
                        | split; [discriminate | intros Hq; now contradiction Hq] ]
            |]);
    contradiction.
Qed.

(** X8. Help texts and the forms. Every field the metric and cluster
    screens describe is a field of their add and edit forms; on the column
    screen [filterable] is, and [dimension_spec_json] is described without
    being a field of either form; on the datasource screen no described
    field is shown in any form or list. *)
Theorem described_fields_and_the_forms (field : string) :
  (In field (keys VaexMetricInlineView.description_columns) ->
   listed field VaexMetricInlineView.add_columns = true /\
   listed field VaexMetricInlineView.edit_columns = true) /\
  (In field (keys VaexClusterModelView.description_columns) ->
   listed field VaexClusterModelView.add_columns = true /\
   listed field VaexClusterModelView.edit_columns = true) /\
  (In field (keys VaexColumnInlineView.description_columns) ->
   (listed field (VaexColumnInlineView.add_columns ++ VaexColumnInlineView.edit_columns)
    = false <-> field = "dimension_spec_json")) /\
  (In field (keys VaexDatasourceModelView.description_columns) ->
   listed field (VaexDatasourceModelView.list_columns
                   ++ VaexDatasourceModelView.add_columns
                   ++ VaexDatasourceModelView.edit_columns
                   ++ VaexDatasourceModelView.show_columns) = false).
Proof.
  split; [|split; [|split]]; intros Hdescribed; cbn in Hdescribed;
    repeat (destruct Hdescribed as [<-|Hdescribed];
            [cbn; first [ reflexivity
                        | split; reflexivity
                        | split; [discriminate | intros Hq; discriminate Hq] ]
            |]);
    contradiction.
Qed.

(** X9. The record fields the code of this file tests or writes, against
    the forms. The restricted flag of a metric, which decides the
    registration after a write, is a field of the metric's add and edit
    forms. The dimension spec, which the check before an update of a column
    reads, is a field of no form or list of the column screen; the schema,
    which decides the [schema_access] registration, is a field of no form or
    list of the datasource screen. The last-refreshed timestamp, which the
    refresh endpoint writes, is listed on the cluster screen and is a field
    of neither its add nor its edit form. *)
Theorem fields_the_code_reads_and_the_forms (field : string) :
  listed "is_restricted" VaexMetricInlineView.add_columns = true /\
  listed "is_restricted" VaexMetricInlineView.edit_columns = true /\
  (In field (VaexColumnInlineView.list_columns ++ VaexColumnInlineView.add_columns
               ++ VaexColumnInlineView.edit_columns) ->
   field <> "dimension_spec_json") /\
  (In field (VaexDatasourceModelView.list_columns ++ VaexDatasourceModelView.add_columns
               ++ VaexDatasourceModelView.edit_columns
               ++ VaexDatasourceModelView.show_columns) ->
   field <> "schema") /\
  listed "metadata_last_refreshed" VaexClusterModelView.list_columns = true /\
  (In field (VaexClusterModelView.add_columns ++ VaexClusterModelView.edit_columns) ->
   field <> "metadata_last_refreshed").
Proof.
  split; [reflexivity|]. split; [reflexivity|].
  split; [|split; [|split; [reflexivity|]]]; intros Hshown; cbn in Hshown;
    repeat (destruct Hshown as [<-|Hshown]; [discriminate|]); contradiction.
Qed.

Section Routes.
Context {ext : Externals}.

(** X10. Routes. Under the framework's default routing, the refresh
    endpoint always answers with a redirect to the list screen of a view
    this file registers (the cluster screen or the datasource screen); the
    [Vaex] view is registered; and the menu links point at exactly the paths
    the [Vaex] view exposes. *)
Theorem routes_lead_to_registered_screens :
  (forall refreshAll s,
      exists view,
        In view (registered_views registrations) /\
        outcome (Vaex.refresh_datasources refreshAll s) =
          Returned (Redirect (list_route view))) /\
  In "Vaex" (registered_views registrations) /\
  (forall href,
      In href (link_targets registrations) <->
      exists path, In path Vaex.exposed /\ href = (route_base "Vaex" ++ path)%string).
Proof.
  split; [|split].
  - intros refreshAll s.
    destruct (refresh_datasources_run refreshAll s)
      as [(rows' & _ & _ & Hrun)|(pre & b & b' & post & e & pre' & _ & _ & Hrun)];
      rewrite Hrun.
    + exists "VaexDatasourceModelView". split; [cbn; tauto | reflexivity].
    + exists "VaexClusterModelView". split; [cbn; tauto | reflexivity].
  - cbn. tauto.
  - intros href. split.
    + intros Hlink. cbn in Hlink.
      destruct Hlink as [<-|[<-|[]]].
      * exists "/scan_new_datasources/". split; [cbn; tauto | reflexivity].
      * exists "/refresh_datasources/". split; [cbn; tauto | reflexivity].
    + intros (path & Hpath & ->). cbn in Hpath.
      destruct Hpath as [<-|[<-|[]]]; cbn; tauto.
Qed.

End Routes.

(** X11. Registration. Each of the five view classes of the file is
    handed to the application builder exactly once; the screens the
    datasource screen embeds are the two inline screens, both registered
    without a menu entry; every menu entry and link sits in the category
    [Sources], and the separator of that category is added last. *)
Theorem registration_is_complete :
  NoDup (registered_views registrations) /\
  (forall view,
      In view (registered_views registrations) <->
      In view ["VaexColumnInlineView"; "VaexMetricInlineView"; "VaexClusterModelView";
               "VaexDatasourceModelView"; "Vaex"]) /\
  (forall view,
      In view VaexDatasourceModelView.related_views ->
      In (AddViewNoMenu view) registrations) /\
  (forall r, In r registrations ->
      match r with
      | AddView _ _ _ _ category _ _ => category = "Sources"
      | AddLink _ _ _ category _ _ _ => category = "Sources"
      | AddSeparator category => category = "Sources"
      | AddViewNoMenu _ => True
      end) /\
  last registrations (AddViewNoMenu "") = AddSeparator "Sources".
Proof.
  split; [|split; [|split; [|split]]].
  - cbn. repeat constructor; cbn; intros H;
      repeat (destruct H as [H|H]; [discriminate H|]); exact H.
  - intros view. cbn. tauto.
  - intros view Hview. cbn in Hview.
    destruct Hview as [<-|[<-|[]]]; cbn; tauto.
  - intros r Hr. cbn in Hr.
    repeat (destruct Hr as [<-|Hr]; [first [exact I | reflexivity]|]).
    contradiction.
  - reflexivity.
Qed.

(** * The further properties run on concrete records *)

Section MoreRuns.
#[local] Existing Instance Sample.externals.

(** The sample clusters behave the same under both flags: on [A], [B], [C]
    the full refresh and the scan for new datasources both stop at [B] with
    the same response, messages and log. *)
Lemma refresh_flag_is_only_forwarded_witness :
  (forall c, cluster_refresh_datasources c true = cluster_refresh_datasources c false) /\
  outcome (Vaex.refresh_datasources true
             (mkSession [Sample.cluster_A; Sample.cluster_B; Sample.cluster_C] 0)) =
    outcome (Vaex.scan_new_datasources
               (mkSession [Sample.cluster_A; Sample.cluster_B; Sample.cluster_C] 0)) /\
  flashes (emitted (Vaex.refresh_datasources true
                      (mkSession [Sample.cluster_A; Sample.cluster_B; Sample.cluster_C] 0))) =
    flashes (emitted (Vaex.scan_new_datasources
                        (mkSession [Sample.cluster_A; Sample.cluster_B; Sample.cluster_C] 0))) /\
  refresh_calls (emitted (Vaex.scan_new_datasources
                            (mkSession [Sample.cluster_A; Sample.cluster_B; Sample.cluster_C] 0))) =
    [("A", false); ("B", false)].
Proof.
  assert (forall c, cluster_refresh_datasources c true = cluster_refresh_datasources c false)
    as Hsame by (intros c; reflexivity).
  split; [exact Hsame|].
  destruct (refresh_flag_is_only_forwarded
              (mkSession [Sample.cluster_A; Sample.cluster_B; Sample.cluster_C] 0) Hsame)
    as (Hout & _ & Hflash & _).
  split; [exact Hout|]. split; [exact Hflash | reflexivity].
Defined.

End MoreRuns.
